(** * eth-rewards-api: block reward and sync-duty handlers

    A shallow embedding of the Go sources

    - [internal/handlers/blockreward.go]  (GetBlockReward, GetSyncDuties, hexToBigInt),
    - [internal/services]                 (ConsensusService, ExecutionService),
    - [internal/models]                   (the JSON response structs),

    together with the parts of the Go runtime and standard library the
    handlers rely on (string length and slicing, [math/big], [strconv],
    [fmt]).  Go strings are byte sequences: they are modelled by [string],
    whose characters are 8-bit [ascii] values, so that [String.length] is
    Go's [len].  [big.Int] is modelled by [Z]; [uint64] by [Z] with the
    wrap-around modulo 2^64 written out. *)

From Stdlib Require Import ZArith String Ascii List Bool Lia Permutation.
From Stdlib Require DecimalString HexadecimalString DecimalPos HexadecimalPos.
Import ListNotations.

Open Scope string_scope.
Open Scope Z_scope.

(* ================================================================= *)
(** ** Go runtime: results, panics, strings *)

Module Go.

(** A Go [(T, error)] pair: either the value (and a nil error) or a
    non-nil error, identified with its message [err.Error()]. *)
Inductive result (A : Type) : Type :=
| Ok (a : A)
| Err (msg : string).
Arguments Ok {A} a.
Arguments Err {A} msg.

(** The outcome of running Go code that may panic at run time. *)
Inductive exec (A : Type) : Type :=
| Done (a : A)
| Panic (msg : string).
Arguments Done {A} a.
Arguments Panic {A} msg.

Definition bind {A B} (e : exec A) (k : A -> exec B) : exec B :=
  match e with
  | Done a => k a
  | Panic msg => Panic msg
  end.

(** [len(s)] for a string: its number of bytes. *)
Definition len (s : string) : Z := Z.of_nat (String.length s).

(** The slice expression [s[lo:hi]]; out-of-range indices panic. *)
Definition slice (s : string) (lo hi : Z) : exec string :=
  if (0 <=? lo) && (lo <=? hi) && (hi <=? len s)
  then Done (substring (Z.to_nat lo) (Z.to_nat (hi - lo)) s)
  else Panic "slice bounds out of range".

(** [s[lo:]] *)
Definition slice_from (s : string) (lo : Z) : exec string :=
  slice s lo (len s).

(** [s[:hi]] *)
Definition slice_to (s : string) (hi : Z) : exec string :=
  slice s 0 hi.

Definition byte_of (ch : ascii) : Z := Z.of_N (N_of_ascii ch).

Definition uint64_modulus : Z := 2 ^ 64.
Definition wrap64 (x : Z) : Z := x mod uint64_modulus.

End Go.

Export Go.

Declare Scope exec_scope.
Delimit Scope exec_scope with exec.
Notation "'let*' x ':=' e 'in' k" :=
  (Go.bind e (fun x => k))
    (at level 10, x name, e at level 100, k at level 200) : exec_scope.
Open Scope exec_scope.

(* ================================================================= *)
(** ** math/big *)

Module big.

Definition Int := Z.

Definition MaxBase : Z := 62.
Definition maxBaseSmall : Z := 36.

Definition NewInt (x : Z) : Int := x.

(** [x.Cmp(y)]: -1, 0 or +1. *)
Definition Cmp (x y : Int) : Z :=
  match x ?= y with
  | Lt => -1
  | Eq => 0
  | Gt => 1
  end.

Definition Add (x y : Int) : Int := x + y.
Definition Sub (x y : Int) : Int := x - y.
Definition Mul (x y : Int) : Int := x * y.

(** [z.Div(x, y)]: Euclidean division.  As in the library, the truncated
    quotient of [QuoRem] is adjusted when the remainder is negative; a
    zero divisor panics. *)
Definition Div (x y : Int) : exec Int :=
  if y =? 0 then Panic "division by zero"
  else
    let q := Z.quot x y in
    let r := Z.rem x y in
    if r <? 0
    then (if y <? 0 then Done (q + 1) else Done (q - 1))
    else Done q.

(** [x.String()]: the decimal representation, with a leading minus
    sign for negative values. *)
Definition String (x : Int) : string :=
  DecimalString.NilEmpty.string_of_int (Z.to_int x).

(** [scanSign]: consumes one optional sign byte; fails at end of input. *)
Definition scanSign (s : string) : option (bool * string) :=
  match s with
  | EmptyString => None
  | String.String ch rest =>
      if Ascii.eqb ch "-" then Some (true, rest)
      else if Ascii.eqb ch "+" then Some (false, rest)
      else Some (false, s)
  end.

(** The digit value [d1] that [nat.scan] assigns to a byte in base [b];
    [MaxBase + 1] for a byte that is no digit at all. *)
Definition digitVal (b : Z) (ch : ascii) : Z :=
  let c := byte_of ch in
  if (48 <=? c) && (c <=? 57) then c - 48
  else if (97 <=? c) && (c <=? 122) then c - 97 + 10
  else if (65 <=? c) && (c <=? 90) then
    (if b <=? maxBaseSmall then c - 65 + 10 else c - 65 + maxBaseSmall)
  else MaxBase + 1.

(** The digit loop of [nat.scan] (no fraction, no separators): reads
    digits while they belong to base [b]; returns the value, the number
    of digits read and the unread input. *)
Fixpoint natScanLoop (b : Z) (s : string) (z : Z) (count : nat)
  : Z * nat * string :=
  match s with
  | EmptyString => (z, count, EmptyString)
  | String.String ch rest =>
      let d1 := digitVal b ch in
      if b <=? d1 then (z, count, s)
      else natScanLoop b rest (z * b + d1) (S count)
  end.

(** [nat.scan]: at least one digit is required. *)
Definition natScan (b : Z) (s : string) : option (Z * string) :=
  match natScanLoop b s 0 O with
  | (_, O, _) => None
  | (z, S _, rest) => Some (z, rest)
  end.

(** [Int.scan]: sign, then magnitude; zero carries no sign. *)
Definition scan (s : string) (base : Z) : option (Int * string) :=
  match scanSign s with
  | None => None
  | Some (neg, s1) =>
      match natScan base s1 with
      | None => None
      | Some (abs, rest) =>
          Some (if negb (abs =? 0) && neg then - abs else abs, rest)
      end
  end.

(** [z.SetString(s, base)] for an explicit base in [2..MaxBase]: the
    whole string must be consumed.  [None] is the [ok == false] result. *)
Definition SetString (s : string) (base : Z) : option Int :=
  match scan s base with
  | None => None
  | Some (z, rest) =>
      match rest with
      | EmptyString => Some z
      | String.String _ _ => None
      end
  end.

End big.

(* ================================================================= *)
(** ** strconv and fmt *)

Module strconv.

(** The two errors of the package; a [*NumError] is represented by the
    message of the error it wraps. *)
Definition ErrSyntax : string := "invalid syntax".
Definition ErrRange : string := "value out of range".

(** The digit loop of [ParseUint(s, 10, 64)], on the unsigned 64-bit
    accumulator [n]. *)
Fixpoint parseUintLoop (base cutoff maxVal : Z) (s : string) (n : Z)
  : result Z :=
  match s with
  | EmptyString => Ok n
  | String.String ch rest =>
      let c := byte_of ch in
      let lower := Z.lor c 32 in
      let digit :=
        if (48 <=? c) && (c <=? 57) then Some (c - 48)
        else if (97 <=? lower) && (lower <=? 122) then Some (lower - 97 + 10)
        else None in
      match digit with
      | None => Err ErrSyntax
      | Some d =>
          if base <=? d then Err ErrSyntax
          else if cutoff <=? n then Err ErrRange
          else
            let n' := wrap64 (n * base) in
            let n1 := wrap64 (n' + d) in
            if (n1 <? n') || (maxVal <? n1) then Err ErrRange
            else parseUintLoop base cutoff maxVal rest n1
      end
  end.

(** [strconv.ParseUint(s, 10, 64)]. *)
Definition ParseUint10_64 (s : string) : result Z :=
  match s with
  | EmptyString => Err ErrSyntax
  | String.String _ _ =>
      let maxUint64 := uint64_modulus - 1 in
      parseUintLoop 10 (maxUint64 / 10 + 1) maxUint64 s 0
  end.

End strconv.

Module fmt.

(** The verb [%d] applied to an integer. *)
Definition verb_d (x : Z) : string :=
  DecimalString.NilEmpty.string_of_int (Z.to_int x).

(** The verb [%x] applied to an unsigned integer: lower-case hex. *)
Definition verb_x (x : Z) : string :=
  HexadecimalString.NilZero.string_of_uint (N.to_hex_uint (Z.to_N x)).

End fmt.

(* ================================================================= *)
(** ** internal/models *)

Module models.

(** The execution payload embedded in a beacon block. *)
Record ExecutionPayload : Type := {
  BlockNumber : string;
  FeeRecipient : string;
  ExtraData : string;
  BaseFeePerGas : string;
  GasUsed : string
}.

(** [BeaconBlockResponse]; the anonymous nested structs
    [Data.Message.Body] hold the execution payload and nothing else. *)
Record BeaconBlockResponse : Type := {
  Version : string;
  Data_Message_Body_ExecutionPayload : ExecutionPayload
}.

(** [BeaconHeadersResponse.Data]: each entry carries
    [Header.Message.Slot]. *)
Record BeaconHeadersResponse : Type := {
  Header_Message_Slot_of_Data : list string
}.

Record ExecutionBlockTx : Type := {
  tx_BlockHash : string;
  tx_BlockNumber : string;
  From : string;
  Gas : string;
  GasPrice : string;
  Hash : string;
  Input : string;
  Nonce : string;
  To : string;
  TransactionIndex : string;
  Value : string;
  Type_ : string
}.

(** [ExecutionBlockFullResponse.Result]. *)
Record ExecutionBlockResult : Type := {
  Number : string;
  res_BaseFeePerGas : string;
  res_ExtraData : string;
  Transactions : list ExecutionBlockTx
}.

Record ExecutionBlockFullResponse : Type := {
  Result : ExecutionBlockResult
}.

(** [SyncCommitteeResponse], with [Data.Validators] flattened. *)
Record SyncCommitteeResponse : Type := {
  ExecutionOptimistic : bool;
  Finalized : bool;
  Data_Validators : list string
}.

End models.

Import models.

(* ================================================================= *)
(** ** encoding/json values, net/http, and the remote node *)

Module json.

(** A JSON document: what [json.Marshal] produces from a request struct
    and what [c.JSON] sends for a [gin.H].  An object is kept as the
    list of its members in the order of the source literal. *)
#[warnings="-register-all"]
Inductive Value : Type :=
| Str (s : string)
| Bool (b : bool)
| Num (n : Z)
| Strs (l : list string)
| Arr (l : list Value)
| Obj (members : list (string * Value)).

End json.

Module http.

Definition StatusOK : Z := 200.
Definition StatusBadRequest : Z := 400.
Definition StatusNotFound : Z := 404.
Definition StatusInternalServerError : Z := 500.

(** A response body, seen through [json.NewDecoder(resp.Body).Decode(&v)]:
    for each struct the services decode into, either the decoded value
    or the decoder's error. *)
Record Body : Type := {
  DecodeBeaconHeaders : result BeaconHeadersResponse;
  DecodeBeaconBlock : result BeaconBlockResponse;
  DecodeExecutionBlock : result ExecutionBlockFullResponse;
  DecodeSyncCommittee : result SyncCommitteeResponse
}.

Record Response : Type := {
  StatusCode : Z;
  RespBody : Body
}.

(** The requests the services issue through [client.Get] and
    [client.Post]. *)
Inductive Request : Type :=
| GET (url : string)
| POST (url contentType : string) (body : json.Value).

(** The remote node: the answer to each request, or a transport error
    (connection failure, timeout). *)
Definition Node : Type := Request -> result Response.

End http.

(** Code that talks to the node: it reads the node's answers and appends
    every request it issues to a log; it may panic. *)
Definition IO (A : Type) : Type :=
  http.Node -> list http.Request -> exec A * list http.Request.

Definition ret {A} (a : A) : IO A := fun _ log => (Done a, log).

Definition io_bind {A B} (m : IO A) (k : A -> IO B) : IO B :=
  fun node log =>
    match m node log with
    | (Done a, log') => k a node log'
    | (Panic msg, log') => (Panic msg, log')
    end.

Definition lift {A} (e : exec A) : IO A := fun _ log => (e, log).

(** [client.Get(url)] and [client.Post(url, contentType, body)]. *)
Definition client_Get (url : string) : IO (result http.Response) :=
  fun node log => (Done (node (http.GET url)), (log ++ [http.GET url])%list).

Definition client_Post (url contentType : string) (body : json.Value)
  : IO (result http.Response) :=
  fun node log =>
    (Done (node (http.POST url contentType body)),
     (log ++ [http.POST url contentType body])%list).

Declare Scope io_scope.
Delimit Scope io_scope with io.
Notation "x <- m ;; k" :=
  (io_bind m (fun x => k))
    (at level 61, m at next level, right associativity) : io_scope.
Open Scope io_scope.

(* ================================================================= *)
(** ** internal/services *)

Module services.

Record Client : Type := { Timeout_seconds : Z }.

(** [ExecutionService] *)
Record ExecutionService : Type := {
  es_endpoint : string;
  es_client : Client
}.

Definition NewExecutionService (endpoint : string) : ExecutionService :=
  {| es_endpoint := endpoint; es_client := {| Timeout_seconds := 10 |} |}.

Record JSONRPCRequest : Type := {
  Jsonrpc : string;
  Method : string;
  Params : list json.Value;
  Id : Z
}.

(** [json.Marshal] of a [JSONRPCRequest], by its field tags. *)
Definition Marshal (r : JSONRPCRequest) : json.Value :=
  json.Obj [("jsonrpc", json.Str (Jsonrpc r));
            ("method", json.Str (Method r));
            ("params", json.Arr (Params r));
            ("id", json.Num (Id r))].

Definition GetExecutionBlockByNumber (e : ExecutionService)
           (blockNumberHex : string)
  : IO (result ExecutionBlockFullResponse) :=
  let reqBody := {| Jsonrpc := "2.0";
                    Method := "eth_getBlockByNumber";
                    Params := [json.Str blockNumberHex; json.Bool true];
                    Id := 1 |} in
  let b := Marshal reqBody in
  r <- client_Post (es_endpoint e) "application/json" b ;;
  match r with
  | Err err => ret (Err err)
  | Ok resp =>
      if negb (http.StatusCode resp =? http.StatusOK) then
        ret (Err ("unexpected status code: "
                    ++ fmt.verb_d (http.StatusCode resp)))
      else
        match http.DecodeExecutionBlock (http.RespBody resp) with
        | Err err => ret (Err err)
        | Ok blockResp =>
            if String.eqb (Number (Result blockResp)) "" then
              ret (Err "block not found on execution layer")
            else ret (Ok blockResp)
        end
  end.

Definition SLOTS_PER_EPOCH : Z := 32.

(** [ConsensusService] *)
Record ConsensusService : Type := {
  endpoint : string;
  client : Client
}.

Definition NewConsensusService (endpoint : string) : ConsensusService :=
  {| endpoint := endpoint; client := {| Timeout_seconds := 10 |} |}.

Definition GetHeadSlot (c : ConsensusService) : IO (result Z) :=
  let url := endpoint c ++ "/eth/v1/beacon/headers" in
  r <- client_Get url ;;
  match r with
  | Err err => ret (Err err)
  | Ok resp =>
      if negb (http.StatusCode resp =? http.StatusOK) then
        ret (Err ("unexpected status code: "
                    ++ fmt.verb_d (http.StatusCode resp)))
      else
        match http.DecodeBeaconHeaders (http.RespBody resp) with
        | Err err => ret (Err err)
        | Ok headersResp =>
            match Header_Message_Slot_of_Data headersResp with
            | [] => ret (Err "no header data returned")
            | headSlotStr :: _ =>
                match strconv.ParseUint10_64 headSlotStr with
                | Err err => ret (Err err)
                | Ok headSlot => ret (Ok headSlot)
                end
            end
        end
  end.

Definition GetBeaconBlockBySlot (c : ConsensusService) (slot : Z)
  : IO (result BeaconBlockResponse) :=
  let url := endpoint c ++ "/eth/v2/beacon/blocks/" ++ fmt.verb_d slot in
  r <- client_Get url ;;
  match r with
  | Err err => ret (Err err)
  | Ok resp =>
      if http.StatusCode resp =? http.StatusNotFound then
        ret (Err "block not found")
      else if negb (http.StatusCode resp =? http.StatusOK) then
        ret (Err ("unexpected status code "
                    ++ fmt.verb_d (http.StatusCode resp)))
      else
        match http.DecodeBeaconBlock (http.RespBody resp) with
        | Err err => ret (Err err)
        | Ok blockResp => ret (Ok blockResp)
        end
  end.

(** The URL of the sync-committee query for a state and an epoch. *)
Definition syncCommitteesURL (endpoint : string) (state_id epoch : Z)
  : string :=
  endpoint ++ "/eth/v1/beacon/states/" ++ fmt.verb_d state_id
           ++ "/sync_committees?epoch=" ++ fmt.verb_d epoch.

Definition GetSyncCommitteeDuties (c : ConsensusService) (slot : Z)
  : IO (result (list string)) :=
  let epoch := slot / SLOTS_PER_EPOCH in
  let state_id := wrap64 (epoch * SLOTS_PER_EPOCH) in
  let url := syncCommitteesURL (endpoint c) state_id epoch in
  r <- client_Get url ;;
  match r with
  | Err err => ret (Err err)
  | Ok resp =>
      if http.StatusCode resp =? http.StatusNotFound then
        ret (Err "sync committee duties not found for this slot")
      else if negb (http.StatusCode resp =? http.StatusOK) then
        ret (Err ("unexpected status code "
                    ++ fmt.verb_d (http.StatusCode resp)
                    ++ " from sync duties endpoint"))
      else
        match http.DecodeSyncCommittee (http.RespBody resp) with
        | Err err => ret (Err err)
        | Ok scResp => ret (Ok (Data_Validators scResp))
        end
  end.

End services.

(* ================================================================= *)
(** ** internal/handlers: the hex parser and the reward computation *)

Module handlers.

(** [hexToBigInt] converts a hexadecimal string to a [big.Int]. *)
Definition hexToBigInt (hexStr : string) : exec (result big.Int) :=
  if 2 <? len hexStr then
    let* pre := slice_to hexStr 2 in
    if String.eqb pre "0x" then
      let* digits := slice_from hexStr 2 in
      match big.SetString digits 16 with
      | None => Done (Err "failed to parse hex string")
      | Some i => Done (Ok i)
      end
    else Done (Err "invalid hex format")
  else Done (Err "invalid hex format").

(** One iteration of the transaction loop of [GetBlockReward]
    (lines 91-107): [continue] leaves the running total as it is. *)
Definition rewardStep (baseFee totalReward : big.Int)
           (tx : ExecutionBlockTx) : exec big.Int :=
  let* gp := hexToBigInt (GasPrice tx) in
  match gp with
  | Err _ => Done totalReward
  | Ok gasPrice =>
      let* g := hexToBigInt (Gas tx) in
      match g with
      | Err _ => Done totalReward
      | Ok gas =>
          if 0 <? big.Cmp gasPrice baseFee then
            let priorityFee := big.Sub gasPrice baseFee in
            let txReward := big.Mul priorityFee gas in
            Done (big.Add totalReward txReward)
          else Done totalReward
      end
  end.

(** The loop [for _, tx := range execBlock.Result.Transactions]. *)
Fixpoint rewardLoop (baseFee : big.Int) (txs : list ExecutionBlockTx)
         (totalReward : big.Int) : exec big.Int :=
  match txs with
  | [] => Done totalReward
  | tx :: rest =>
      let* t := rewardStep baseFee totalReward tx in
      rewardLoop baseFee rest t
  end.

(** Lines 90-107: the total reward in wei. *)
Definition totalRewardWei (baseFee : big.Int)
           (txs : list ExecutionBlockTx) : exec big.Int :=
  rewardLoop baseFee txs (big.NewInt 0).

(** Lines 109-111: wei to gwei. *)
Definition rewardInGwei (totalReward : big.Int) : exec big.Int :=
  let divider := big.NewInt 1000000000 in
  big.Div totalReward divider.

(** Lines 113-117: the status, from the length of the extra-data
    string of the execution block. *)
Definition blockStatus (execBlock : ExecutionBlockFullResponse) : string :=
  if 20 <? len (res_ExtraData (Result execBlock)) then "relay" else "vanilla".

(** What [c.JSON(code, obj)] writes. *)
Record Response : Type := JSON {
  code : Z;
  obj : json.Value
}.

(** [gin.H{"error": msg}] *)
Definition errorH (msg : string) : json.Value :=
  json.Obj [("error", json.Str msg)].

(** Lines 83-124 of [GetBlockReward]: from the execution block to the
    response. *)
Definition rewardResponse (execBlock : ExecutionBlockFullResponse)
  : exec Response :=
  let* bf := hexToBigInt (res_BaseFeePerGas (Result execBlock)) in
  match bf with
  | Err _ =>
      Done (JSON http.StatusInternalServerError (errorH "invalid base fee"))
  | Ok baseFee =>
      let* totalReward :=
        totalRewardWei baseFee (Transactions (Result execBlock)) in
      let* gwei := rewardInGwei totalReward in
      let status := blockStatus execBlock in
      Done (JSON http.StatusOK
                 (json.Obj [("status", json.Str status);
                            ("reward", json.Str (big.String gwei))]))
  end.

Record BlockRewardHandler : Type := {
  consensusService : services.ConsensusService;
  executionService : services.ExecutionService
}.

Definition NewBlockRewardHandler (cs : services.ConsensusService)
           (es : services.ExecutionService) : BlockRewardHandler :=
  {| consensusService := cs; executionService := es |}.

(** [GetBlockReward]; [slotParam] is [c.Param("slot")]. *)
Definition GetBlockReward (h : BlockRewardHandler) (slotParam : string)
  : IO Response :=
  match strconv.ParseUint10_64 slotParam with
  | Err _ =>
      ret (JSON http.StatusBadRequest (errorH "invalid slot parameter"))
  | Ok slot =>
  hs <- services.GetHeadSlot (consensusService h) ;;
  match hs with
  | Err _ =>
      ret (JSON http.StatusInternalServerError
                (errorH "failed to fetch head slot"))
  | Ok headSlot =>
  if headSlot <? slot then
    ret (JSON http.StatusBadRequest
              (errorH "requested slot is in the future"))
  else
  bb <- services.GetBeaconBlockBySlot (consensusService h) slot ;;
  match bb with
  | Err err =>
      if String.eqb err "block not found" then
        ret (JSON http.StatusNotFound (errorH "slot not found/missed"))
      else
        ret (JSON http.StatusInternalServerError
                  (errorH "failed to get beacon block"))
  | Ok beaconBlock =>
  let blockNumberDecimal :=
    BlockNumber (Data_Message_Body_ExecutionPayload beaconBlock) in
  if String.eqb blockNumberDecimal "" then
    ret (JSON http.StatusNotFound
              (errorH "no execution payload for this slot"))
  else
  match strconv.ParseUint10_64 blockNumberDecimal with
  | Err _ =>
      ret (JSON http.StatusInternalServerError
                (errorH "invalid block number format"))
  | Ok blockNumberInt =>
  let blockNumberHex := "0x" ++ fmt.verb_x blockNumberInt in
  eb <- services.GetExecutionBlockByNumber (executionService h)
                                           blockNumberHex ;;
  match eb with
  | Err _ =>
      ret (JSON http.StatusInternalServerError
                (errorH "failed to get execution block"))
  | Ok execBlock => lift (rewardResponse execBlock)
  end end end end end.

(** [GetSyncDuties] *)
Definition GetSyncDuties (h : BlockRewardHandler) (slotParam : string)
  : IO Response :=
  match strconv.ParseUint10_64 slotParam with
  | Err _ =>
      ret (JSON http.StatusBadRequest (errorH "invalid slot parameter"))
  | Ok slot =>
  hs <- services.GetHeadSlot (consensusService h) ;;
  match hs with
  | Err _ =>
      ret (JSON http.StatusInternalServerError
                (errorH "failed to fetch head slot"))
  | Ok headSlot =>
  if headSlot <? slot then
    ret (JSON http.StatusBadRequest
              (errorH "requested slot is too far in the future"))
  else
  v <- services.GetSyncCommitteeDuties (consensusService h) slot ;;
  match v with
  | Err err =>
      if String.eqb err "sync committee duties not found for this slot" then
        ret (JSON http.StatusNotFound
                  (errorH "sync committee duties not found"))
      else
        ret (JSON http.StatusInternalServerError
                  (errorH "failed to get sync committee duties"))
  | Ok validators =>
      ret (JSON http.StatusOK
                (json.Obj [("validators", json.Strs validators)]))
  end end end.

End handlers.

Import handlers.

(* ================================================================= *)
(** ** Vocabulary of the specification *)

(** A hexadecimal digit: [0-9], [a-f] or [A-F]. *)
Definition isHexDigit (ch : ascii) : bool :=
  let c := byte_of ch in
  ((48 <=? c) && (c <=? 57))
  || ((97 <=? c) && (c <=? 102))
  || ((65 <=? c) && (c <=? 70)).

Fixpoint allHexDigits (s : string) : bool :=
  match s with
  | EmptyString => true
  | String.String c rest => isHexDigit c && allHexDigits rest
  end.

(** The part of a literal that follows its optional sign. *)
Definition afterSign (s : string) : string :=
  match s with
  | EmptyString => s
  | String.String c rest =>
      if Ascii.eqb c "-" || Ascii.eqb c "+" then rest else s
  end.

(** A base-16 integer literal: an optional sign, then one or more
    hexadecimal digits, and nothing else. *)
Definition isBase16Literal (s : string) : bool :=
  negb (String.eqb (afterSign s) "") && allHexDigits (afterSign s).

(** A string parses to [v] when [hexToBigInt] returns [v] and a nil
    error; it fails to parse when [hexToBigInt] returns an error. *)
Definition parsesTo (s : string) (v : Z) : Prop :=
  hexToBigInt s = Done (Ok v).

Definition failsToParse (s : string) : Prop :=
  exists msg, hexToBigInt s = Done (Err msg).

Definition parseHex (s : string) : option Z :=
  match hexToBigInt s with
  | Done (Ok v) => Some v
  | _ => None
  end.

(** A transaction is counted in the reward when its gas price and its gas
    both parse and the gas price is strictly above the base fee. *)
Definition counted (baseFee : Z) (tx : ExecutionBlockTx) : bool :=
  match parseHex (GasPrice tx), parseHex (Gas tx) with
  | Some gasPrice, Some _ => baseFee <? gasPrice
  | _, _ => false
  end.

(** What a counted transaction adds: (gasPrice - baseFee) * gas. *)
Definition contribution (baseFee : Z) (tx : ExecutionBlockTx) : Z :=
  match parseHex (GasPrice tx), parseHex (Gas tx) with
  | Some gasPrice, Some gas => (gasPrice - baseFee) * gas
  | _, _ => 0
  end.

Definition sumOfContributions (baseFee : Z) (txs : list ExecutionBlockTx)
  : Z :=
  fold_right Z.add 0 (map (contribution baseFee) (filter (counted baseFee) txs)).

(** Every counted transaction has a gas value that is not negative. *)
Definition countedGasNonneg (baseFee : Z) (txs : list ExecutionBlockTx)
  : Prop :=
  forall tx g, In tx txs -> counted baseFee tx = true ->
               parsesTo (Gas tx) g -> 0 <= g.

Definition gwei : Z := 1000000000.

(** The extra-data field on the wire: the bytes of the field, two
    lower-case hexadecimal digits each, behind the prefix 0x.  The decoded
    extra-data of a field [s] is the byte sequence [data] with
    [encodeHexData data = s]. *)
Definition hexDigitChar (n : Z) : ascii :=
  ascii_of_N (Z.to_N (if n <? 10 then 48 + n else 87 + n)).

Definition byteHex (b : Byte.byte) (tail : string) : string :=
  let n := Z.of_N (Byte.to_N b) in
  String.String (hexDigitChar (n / 16))
                (String.String (hexDigitChar (n mod 16)) tail).

Definition hexOfBytes (data : list Byte.byte) : string :=
  fold_right byteHex EmptyString data.

Definition encodeHexData (data : list Byte.byte) : string :=
  ("0x" ++ hexOfBytes data)%string.

(** The URL of the headers request of a consensus service. *)
Definition headersURL (c : services.ConsensusService) : string :=
  (services.endpoint c ++ "/eth/v1/beacon/headers")%string.

(** The two answers to a slot beyond the head. *)
Definition futureSlotReward : Response :=
  JSON http.StatusBadRequest (errorH "requested slot is in the future").

Definition futureSlotDuties : Response :=
  JSON http.StatusBadRequest (errorH "requested slot is too far in the future").

(** The answer of [GetBlockReward] for a reward and a status. *)
Definition okResponse (status : string) (reward : Z) : Response :=
  JSON http.StatusOK
       (json.Obj [("status", json.Str status);
                  ("reward", json.Str (big.String reward))]).

(* ----------------------------------------------------------------- *)
(** *** Sample data *)

Definition mkTx (gasPrice gas : string) : ExecutionBlockTx :=
  {| tx_BlockHash := ""; tx_BlockNumber := ""; From := "";
     Gas := gas; GasPrice := gasPrice;
     Hash := ""; Input := ""; Nonce := ""; To := "";
     TransactionIndex := ""; Value := ""; Type_ := "0x2" |}.

Definition mkBlock (number baseFee extraData : string)
           (txs : list ExecutionBlockTx) : ExecutionBlockFullResponse :=
  {| Result := {| Number := number; res_BaseFeePerGas := baseFee;
                  res_ExtraData := extraData; Transactions := txs |} |}.

(** The same block with another transaction list. *)
Definition withTransactions (blk : ExecutionBlockFullResponse)
           (txs : list ExecutionBlockTx) : ExecutionBlockFullResponse :=
  mkBlock (Number (Result blk)) (res_BaseFeePerGas (Result blk))
          (res_ExtraData (Result blk)) txs.

(** Twenty bytes of extra data, and the block that carries them. *)
Definition twentyBytes : list Byte.byte := repeat Byte.x2a 20.

Definition blockWithTwentyBytes : ExecutionBlockFullResponse :=
  mkBlock "0x10" "0x7" (encodeHexData twentyBytes) [].

(** A block whose only counted transaction has a negative gas field. *)
Definition blockWithNegativeGas : ExecutionBlockFullResponse :=
  mkBlock "0x10" "0x1" "0x" [mkTx "0x2" "0x-3b9aca00"].

(** A block whose total is 1,999,999,999 wei. *)
Definition blockJustBelowTwoGwei : ExecutionBlockFullResponse :=
  mkBlock "0x10" "0x0" "0x" [mkTx "0x1" "0x773593ff"].

(** A block that mixes counted, cheap and unparsable transactions. *)
Definition mixedBlock : ExecutionBlockFullResponse :=
  mkBlock "0x10" "0x3b9aca00" "0x6765746800"
          [mkTx "0x77359400" "0x5208";
           mkTx "0x3b9aca00" "0x5208";
           mkTx "" "0x5208";
           mkTx "0x77359400" "21000";
           mkTx "0x4a817c800" "0xc350"].

(** An empty block with a long extra-data tag. *)
Definition emptyTaggedBlock : ExecutionBlockFullResponse :=
  mkBlock "0x10" "0x7" "0x546974616e2028746974616e6275696c6465722e78797a29" [].

(** A node whose head is slot 10590951.  It serves the headers, the
    beacon block of the head slot (execution block 21400000) and the sync
    committee of epoch 330967; it has no execution block to give: every
    [eth_getBlockByNumber] call is answered 200 with a null result, which
    decodes to a block whose fields are all empty. *)
Definition sampleEndpoint : string := "http://node.example".

Definition sampleHandler : BlockRewardHandler :=
  NewBlockRewardHandler (services.NewConsensusService sampleEndpoint)
                        (services.NewExecutionService sampleEndpoint).

Definition emptyPayload : ExecutionPayload :=
  {| BlockNumber := ""; FeeRecipient := ""; ExtraData := "";
     BaseFeePerGas := ""; GasUsed := "" |}.

(** What a JSON object without any of the expected members decodes to. *)
Definition emptyBody : http.Body :=
  {| http.DecodeBeaconHeaders := Ok {| Header_Message_Slot_of_Data := [] |};
     http.DecodeBeaconBlock :=
       Ok {| Version := "";
             Data_Message_Body_ExecutionPayload := emptyPayload |};
     http.DecodeExecutionBlock := Ok (mkBlock "" "" "" []);
     http.DecodeSyncCommittee :=
       Ok {| ExecutionOptimistic := false; Finalized := false;
             Data_Validators := [] |} |}.

Definition headersBody (slots : list string) : http.Body :=
  {| http.DecodeBeaconHeaders := Ok {| Header_Message_Slot_of_Data := slots |};
     http.DecodeBeaconBlock := http.DecodeBeaconBlock emptyBody;
     http.DecodeExecutionBlock := http.DecodeExecutionBlock emptyBody;
     http.DecodeSyncCommittee := http.DecodeSyncCommittee emptyBody |}.

Definition beaconBlockBody (blockNumber : string) : http.Body :=
  {| http.DecodeBeaconHeaders := http.DecodeBeaconHeaders emptyBody;
     http.DecodeBeaconBlock :=
       Ok {| Version := "deneb";
             Data_Message_Body_ExecutionPayload :=
               {| BlockNumber := blockNumber; FeeRecipient := "";
                  ExtraData := ""; BaseFeePerGas := "7"; GasUsed := "0" |} |};
     http.DecodeExecutionBlock := http.DecodeExecutionBlock emptyBody;
     http.DecodeSyncCommittee := http.DecodeSyncCommittee emptyBody |}.

Definition syncCommitteeBody (validators : list string) : http.Body :=
  {| http.DecodeBeaconHeaders := http.DecodeBeaconHeaders emptyBody;
     http.DecodeBeaconBlock := http.DecodeBeaconBlock emptyBody;
     http.DecodeExecutionBlock := http.DecodeExecutionBlock emptyBody;
     http.DecodeSyncCommittee :=
       Ok {| ExecutionOptimistic := false; Finalized := true;
             Data_Validators := validators |} |}.

Definition sampleNode : http.Node :=
  fun req =>
    match req with
    | http.GET url =>
        if String.eqb url "http://node.example/eth/v1/beacon/headers" then
          Ok {| http.StatusCode := 200;
                http.RespBody := headersBody ["10590951"] |}
        else if String.eqb url
                  "http://node.example/eth/v2/beacon/blocks/10590951" then
          Ok {| http.StatusCode := 200;
                http.RespBody := beaconBlockBody "21400000" |}
        else if String.eqb url
                  "http://node.example/eth/v1/beacon/states/10590944/sync_committees?epoch=330967" then
          Ok {| http.StatusCode := 200;
                http.RespBody := syncCommitteeBody ["1024"; "77"; "4096"] |}
        else Ok {| http.StatusCode := 404; http.RespBody := emptyBody |}
    | http.POST _ _ _ =>
        Ok {| http.StatusCode := 200; http.RespBody := emptyBody |}
    end.

(** The requests of the sample run. *)
Definition headersRequest : http.Request :=
  http.GET "http://node.example/eth/v1/beacon/headers".

Definition blockRequest : http.Request :=
  http.GET "http://node.example/eth/v2/beacon/blocks/10590951".

Definition executionRequest : http.Request :=
  http.POST "http://node.example" "application/json"
            (json.Obj [("jsonrpc", json.Str "2.0");
                       ("method", json.Str "eth_getBlockByNumber");
                       ("params", json.Arr [json.Str "0x14689c0";
                                            json.Bool true]);
                       ("id", json.Num 1)]).

(* ----------------------------------------------------------------- *)
(** *** Numerals *)

(** A decimal digit, [0-9]. *)
Definition isDecimalDigit (ch : ascii) : bool :=
  let c := byte_of ch in (48 <=? c) && (c <=? 57).

Fixpoint allDecimalDigits (s : string) : bool :=
  match s with
  | EmptyString => true
  | String.String c rest => isDecimalDigit c && allDecimalDigits rest
  end.

(** The number a run of decimal digits denotes, most significant digit
    first, continuing from [acc]. *)
Fixpoint decimalValueFrom (acc : Z) (s : string) : Z :=
  match s with
  | EmptyString => acc
  | String.String c rest => decimalValueFrom (acc * 10 + (byte_of c - 48)) rest
  end.

Definition decimalValue (s : string) : Z := decimalValueFrom 0 s.

(** The decimal numerals of the unsigned 64-bit integers: one or more
    decimal digits (no sign, no blank) denoting a number below 2^64. *)
Definition isUint64Numeral (s : string) : bool :=
  negb (String.eqb s "") && allDecimalDigits s
  && (decimalValue s <? uint64_modulus).

(** The value of a hexadecimal digit, in either case. *)
Definition hexDigitValue (ch : ascii) : Z :=
  let c := byte_of ch in
  if c <=? 57 then c - 48 else if c <=? 70 then c - 55 else c - 87.

(** The number a run of hexadecimal digits denotes, continuing from
    [acc]. *)
Fixpoint hexValueFrom (acc : Z) (s : string) : Z :=
  match s with
  | EmptyString => acc
  | String.String c rest => hexValueFrom (acc * 16 + hexDigitValue c) rest
  end.

Definition hexValue (s : string) : Z := hexValueFrom 0 s.

(** The answer of both handlers to a slot parameter that is no number. *)
Definition invalidSlot : Response :=
  JSON http.StatusBadRequest (errorH "invalid slot parameter").

(* ----------------------------------------------------------------- *)
(** *** The requests of the services *)

(** The request for the beacon block of a slot. *)
Definition blockRequestFor (c : services.ConsensusService) (slot : Z)
  : http.Request :=
  http.GET (services.endpoint c ++ "/eth/v2/beacon/blocks/"
              ++ fmt.verb_d slot)%string.

(** The request for the sync committee of the epoch of a slot. *)
Definition syncRequestFor (c : services.ConsensusService) (slot : Z)
  : http.Request :=
  http.GET (services.endpoint c ++ "/eth/v1/beacon/states/"
              ++ fmt.verb_d (slot / 32 * 32)
              ++ "/sync_committees?epoch=" ++ fmt.verb_d (slot / 32))%string.

(** The JSON-RPC call for an execution block with its transactions. *)
Definition blockByNumberRequest (e : services.ExecutionService)
           (blockNumberHex : string) : http.Request :=
  http.POST (services.es_endpoint e) "application/json"
            (json.Obj [("jsonrpc", json.Str "2.0");
                       ("method", json.Str "eth_getBlockByNumber");
                       ("params", json.Arr [json.Str blockNumberHex;
                                            json.Bool true]);
                       ("id", json.Num 1)]).

(** A node that cannot be reached, a node from before the merge (its
    beacon blocks carry no execution block number), and a node that
    serves the execution block [mixedBlock]. *)
Definition unreachableNode : http.Node :=
  fun _ => Err "connection refused".

Definition preMergeNode : http.Node :=
  fun req =>
    match req with
    | http.GET url =>
        if String.eqb url "http://node.example/eth/v1/beacon/headers" then
          Ok {| http.StatusCode := 200;
                http.RespBody := headersBody ["4700000"; "4699999"] |}
        else Ok {| http.StatusCode := 200;
                   http.RespBody := beaconBlockBody "" |}
    | http.POST _ _ _ =>
        Ok {| http.StatusCode := 200; http.RespBody := emptyBody |}
    end.

Definition fullNode : http.Node :=
  fun req =>
    match req with
    | http.GET _ => sampleNode req
    | http.POST _ _ _ =>
        Ok {| http.StatusCode := 200;
              http.RespBody :=
                {| http.DecodeBeaconHeaders := http.DecodeBeaconHeaders emptyBody;
                   http.DecodeBeaconBlock := http.DecodeBeaconBlock emptyBody;
                   http.DecodeExecutionBlock := Ok mixedBlock;
                   http.DecodeSyncCommittee := http.DecodeSyncCommittee emptyBody |} |}
    end.

(** Splits the goal on every [match] and [if] it contains. *)
Ltac break_match :=
  repeat match goal with
         | |- context [match ?x with _ => _ end] => destruct x eqn:?
         end.

(** Replaces the code of a literal character by its number. *)
Ltac byte_of_literal :=
  repeat match goal with
         | |- context [byte_of ?c] =>
             let v := eval vm_compute in (byte_of c) in
             change (byte_of c) with v
         | |- context [hexDigitValue ?c] =>
             let v := eval vm_compute in (hexDigitValue c) in
             change (hexDigitValue c) with v
         end.

(** Closes a case in which the answer is not the 200 one. *)
Ltac not_a_200 H Hcode :=
  cbn in H; inversion H; subst; cbn in Hcode; discriminate Hcode.

(* ================================================================= *)
(** ** Strings and slices *)

Section Strings.

Lemma len_nonneg (s : string) : 0 <= len s.
Proof. unfold len. lia. Qed.

Lemma len_cons (c : ascii) (s : string) :
  len (String.String c s) = 1 + len s.
Proof. unfold len. simpl String.length. lia. Qed.

Lemma substring_whole (s : string) :
  substring 0 (String.length s) s = s.
Proof. induction s as [|c s IH]; simpl; [reflexivity | now rewrite IH]. Qed.

Lemma slice_to_2 (c1 c2 : ascii) (rest : string) :
  slice_to (String.String c1 (String.String c2 rest)) 2
  = Done (String.String c1 (String.String c2 EmptyString)).
Proof.
  unfold slice_to, slice. rewrite !len_cons.
  pose proof (len_nonneg rest) as Hr.
  replace (0 <=? 0) with true by reflexivity.
  replace (0 <=? 2) with true by reflexivity.
  replace (2 <=? 1 + (1 + len rest)) with true
    by (symmetry; apply Z.leb_le; lia).
  simpl. destruct rest; reflexivity.
Qed.

Lemma slice_from_2 (c1 c2 : ascii) (rest : string) :
  slice_from (String.String c1 (String.String c2 rest)) 2 = Done rest.
Proof.
  unfold slice_from, slice. rewrite !len_cons.
  pose proof (len_nonneg rest) as Hr.
  replace (0 <=? 2) with true by reflexivity.
  replace (2 <=? 1 + (1 + len rest)) with true
    by (symmetry; apply Z.leb_le; lia).
  replace (1 + (1 + len rest) <=? 1 + (1 + len rest)) with true
    by (symmetry; apply Z.leb_le; lia).
  cbn [andb]. f_equal.
  replace (1 + (1 + len rest) - 2) with (len rest) by lia.
  unfold len. rewrite Nat2Z.id.
  change (Z.to_nat 2) with 2%nat. simpl. apply substring_whole.
Qed.

End Strings.

(* ================================================================= *)
(** ** big.Int.SetString in base 16 *)

Section SetString16.

Lemma digitVal_16_hex (c : ascii) :
  (16 <=? big.digitVal 16 c) = negb (isHexDigit c).
Proof.
  destruct c as [b0 b1 b2 b3 b4 b5 b6 b7];
    destruct b0, b1, b2, b3, b4, b5, b6, b7; reflexivity.
Qed.

Lemma natScanLoop_all_hex (s : string) :
  forall z n, allHexDigits s = true ->
    exists z', big.natScanLoop 16 s z n
               = (z', (n + String.length s)%nat, EmptyString).
Proof.
  induction s as [|c s IH]; intros z n Hall; simpl in *.
  - exists z. now rewrite Nat.add_0_r.
  - apply andb_true_iff in Hall as [Hc Hs].
    rewrite digitVal_16_hex, Hc. cbn [negb].
    destruct (IH (z * 16 + big.digitVal 16 c) (S n) Hs) as [z' Hz'].
    exists z'. rewrite Hz'. f_equal. f_equal. lia.
Qed.

Lemma natScanLoop_stops (s : string) :
  forall z n, allHexDigits s = false ->
    exists z' n' c rest,
      big.natScanLoop 16 s z n = (z', n', String.String c rest).
Proof.
  induction s as [|c s IH]; intros z n Hall; simpl in *.
  - discriminate.
  - rewrite digitVal_16_hex.
    destruct (isHexDigit c) eqn:Hc; cbn [negb andb] in *.
    + apply IH. exact Hall.
    + now exists z, n, c, s.
Qed.

(** The digits of a literal are scanned to the end exactly when there
    is at least one of them and all are hexadecimal. *)
Lemma natScan_16_total (s : string) :
  (exists z, big.natScan 16 s = Some (z, EmptyString))
  <-> negb (String.eqb s "") && allHexDigits s = true.
Proof.
  unfold big.natScan. destruct (allHexDigits s) eqn:Hall.
  - destruct (natScanLoop_all_hex s 0 0%nat Hall) as [z' Hz'].
    rewrite Hz'. destruct s as [|c s]; simpl.
    + split; [intros [z Hz]; discriminate | discriminate].
    + split; [reflexivity | intros _; now exists z'].
  - destruct (natScanLoop_stops s 0 0%nat Hall) as (z' & n' & c & rest & Hz').
    rewrite Hz', andb_false_r. split; [|discriminate].
    intros [z Hz]. destruct n'; discriminate.
Qed.

Lemma scanSign_afterSign (s : string) :
  s <> EmptyString ->
  exists neg, big.scanSign s = Some (neg, afterSign s).
Proof.
  destruct s as [|c rest]; [congruence|]. intros _. simpl.
  destruct (Ascii.eqb c "-"); [now exists true|].
  destruct (Ascii.eqb c "+"); now exists false.
Qed.

(** [SetString(s, 16)] reports success exactly on the base-16 literals. *)
Lemma SetString_16_ok_iff (s : string) :
  (exists v, big.SetString s 16 = Some v) <-> isBase16Literal s = true.
Proof.
  unfold isBase16Literal, big.SetString, big.scan.
  destruct s as [|c rest] eqn:Es.
  - simpl. split; [intros [v Hv]; discriminate | discriminate].
  - rewrite <- Es.
    destruct (scanSign_afterSign s) as [neg Hneg]; [subst; discriminate|].
    rewrite Hneg. rewrite <- natScan_16_total.
    destruct (big.natScan 16 (afterSign s)) as [[a r]|].
    + destruct r as [|c' r'].
      * split; [intros _; now exists a | intros _; eexists; reflexivity].
      * split; [intros [v Hv]; discriminate | intros [z Hz]; discriminate].
    + split; [intros [v Hv]; discriminate | intros [z Hz]; discriminate].
Qed.

End SetString16.

(* ================================================================= *)
(** ** hexToBigInt *)

Section HexToBigInt.

Let invalid : exec (result big.Int) := Done (Err "invalid hex format").

Lemma hexToBigInt_short (s : string) :
  len s <= 2 -> hexToBigInt s = invalid.
Proof.
  intros H. unfold hexToBigInt.
  replace (2 <? len s) with false by (symmetry; apply Z.ltb_ge; exact H).
  reflexivity.
Qed.

Lemma hexToBigInt_long (c1 c2 c3 : ascii) (rest : string) :
  hexToBigInt (String.String c1 (String.String c2 (String.String c3 rest)))
  = if Ascii.eqb c1 "0" && Ascii.eqb c2 "x" then
      match big.SetString (String.String c3 rest) 16 with
      | None => Done (Err "failed to parse hex string")
      | Some i => Done (Ok i)
      end
    else invalid.
Proof.
  unfold hexToBigInt.
  replace (2 <? len _) with true
    by (symmetry; apply Z.ltb_lt; rewrite !len_cons;
        pose proof (len_nonneg rest); lia).
  rewrite slice_to_2, slice_from_2. cbn [Go.bind String.eqb].
  destruct (Ascii.eqb c1 "0"); [|reflexivity].
  destruct (Ascii.eqb c2 "x"); reflexivity.
Qed.

Lemma hexToBigInt_prefixed (rest : string) :
  rest <> EmptyString ->
  hexToBigInt ("0x" ++ rest)
  = match big.SetString rest 16 with
    | None => Done (Err "failed to parse hex string")
    | Some i => Done (Ok i)
    end.
Proof.
  destruct rest as [|c3 rest]; [congruence|]. intros _.
  change ("0x" ++ String.String c3 rest)%string
    with (String.String "0" (String.String "x" (String.String c3 rest))).
  now rewrite hexToBigInt_long.
Qed.

Lemma hexToBigInt_unprefixed (s : string) :
  (forall rest, s <> ("0x" ++ rest)%string) -> hexToBigInt s = invalid.
Proof.
  intros Hs. destruct s as [|c1 [|c2 [|c3 rest]]];
    try (apply hexToBigInt_short; vm_compute; discriminate).
  rewrite hexToBigInt_long.
  destruct (Ascii.eqb_spec c1 "0") as [-> | ]; [|reflexivity].
  destruct (Ascii.eqb_spec c2 "x") as [-> | ]; [|reflexivity].
  exfalso. now apply (Hs (String.String c3 rest)).
Qed.

(** [hexToBigInt] always returns: a value or an error, never a panic. *)
Lemma hexToBigInt_returns (s : string) :
  (exists v, hexToBigInt s = Done (Ok v))
  \/ (exists msg, hexToBigInt s = Done (Err msg)).
Proof.
  destruct s as [|c1 [|c2 [|c3 rest]]];
    try (right; eexists; apply hexToBigInt_short; vm_compute; discriminate).
  rewrite hexToBigInt_long.
  destruct (Ascii.eqb c1 "0" && Ascii.eqb c2 "x");
    [|right; eexists; reflexivity].
  destruct (big.SetString _ 16);
    [left | right]; eexists; reflexivity.
Qed.

Lemma hexToBigInt_parseHex (s : string) :
  hexToBigInt s
  = Done (match parseHex s with
          | Some v => Ok v
          | None =>
              match hexToBigInt s with
              | Done (Err msg) => Err msg
              | _ => Err ""
              end
          end).
Proof.
  unfold parseHex.
  destruct (hexToBigInt_returns s) as [[v Hv] | [msg Hm]].
  - now rewrite Hv.
  - now rewrite Hm.
Qed.

Lemma parseHex_Some (s : string) (v : Z) :
  parseHex s = Some v <-> parsesTo s v.
Proof.
  unfold parseHex, parsesTo.
  destruct (hexToBigInt s) as [[a|m]|m]; split; intros H;
    try discriminate; inversion H; reflexivity.
Qed.

Lemma parseHex_None (s : string) :
  parseHex s = None <-> failsToParse s.
Proof.
  unfold parseHex, failsToParse.
  destruct (hexToBigInt_returns s) as [[v Hv] | [msg Hm]].
  - rewrite Hv. split; [discriminate | intros [m Hm]; discriminate].
  - rewrite Hm. split; [intros _; now exists msg | reflexivity].
Qed.

End HexToBigInt.

(** C10.  [hexToBigInt] returns a value exactly on the strings longer
    than two bytes that start with the two characters 0x and continue with
    a base-16 literal (optional sign, then hexadecimal digits), the value
    being the one [big.Int.SetString] gives for the part after the prefix;
    on every other string it returns an error, and it never panics.  The
    bare prefix, an upper-case 0X prefix and a missing prefix are all
    reported as an invalid format. *)
Theorem hexToBigInt_succeeds_exactly :
  forall s : string,
    ((exists v, hexToBigInt s = Done (Ok v))
     <-> (2 < len s
          /\ exists rest, s = ("0x" ++ rest)%string
                          /\ isBase16Literal rest = true))
    /\ (forall rest v, s = ("0x" ++ rest)%string -> rest <> EmptyString ->
          (hexToBigInt s = Done (Ok v) <-> big.SetString rest 16 = Some v))
    /\ ((exists v, hexToBigInt s = Done (Ok v))
        \/ (exists msg, hexToBigInt s = Done (Err msg)))
    /\ hexToBigInt "0x" = Done (Err "invalid hex format")
    /\ (forall rest, hexToBigInt ("0X" ++ rest) = Done (Err "invalid hex format"))
    /\ ((forall rest, s <> ("0x" ++ rest)%string) ->
        hexToBigInt s = Done (Err "invalid hex format")).
Proof.
  intros s. split; [split|split; [|split; [|split; [|split]]]].
  - (* a value comes only from a long, prefixed literal *)
    intros [v Hv]. split.
    + destruct (Z.ltb_spec 2 (len s)) as [Hl|Hl]; [exact Hl|].
      rewrite (hexToBigInt_short s Hl) in Hv. discriminate.
    + destruct s as [|c1 [|c2 [|c3 rest]]];
        try (rewrite hexToBigInt_short in Hv by (vm_compute; discriminate);
             discriminate).
      rewrite hexToBigInt_long in Hv.
      destruct (Ascii.eqb_spec c1 "0") as [-> | ]; [|discriminate].
      destruct (Ascii.eqb_spec c2 "x") as [-> | ]; [|discriminate].
      cbn [andb] in Hv. exists (String.String c3 rest). split; [reflexivity|].
      apply SetString_16_ok_iff.
      destruct (big.SetString _ 16) as [i|]; [now exists i | discriminate].
  - intros (Hl & rest & -> & Hlit).
    apply SetString_16_ok_iff in Hlit as [v Hv].
    exists v. rewrite hexToBigInt_prefixed, Hv; [reflexivity|].
    intros ->. discriminate.
  - intros rest v -> Hne. rewrite hexToBigInt_prefixed by assumption.
    destruct (big.SetString rest 16); split; intros E;
      try discriminate; inversion E; reflexivity.
  - apply hexToBigInt_returns.
  - reflexivity.
  - intros rest. apply hexToBigInt_unprefixed. intros r. discriminate.
  - apply hexToBigInt_unprefixed.
Qed.

(* ================================================================= *)
(** ** The reward computation *)

Section Reward.

Lemma counted_iff (baseFee : Z) (tx : ExecutionBlockTx) :
  counted baseFee tx = true
  <-> exists gasPrice gas,
        parsesTo (GasPrice tx) gasPrice /\ parsesTo (Gas tx) gas
        /\ baseFee < gasPrice.
Proof.
  unfold counted. split.
  - destruct (parseHex (GasPrice tx)) as [gp|] eqn:Egp; [|discriminate].
    destruct (parseHex (Gas tx)) as [g|] eqn:Eg; [|discriminate].
    intros H. exists gp, g. rewrite <- !parseHex_Some.
    apply Z.ltb_lt in H. auto.
  - intros (gp & g & Hgp & Hg & Hlt).
    apply parseHex_Some in Hgp, Hg. rewrite Hgp, Hg.
    now apply Z.ltb_lt.
Qed.

Lemma Cmp_pos (x y : Z) : (0 <? big.Cmp x y) = (y <? x).
Proof.
  unfold big.Cmp. rewrite (Z.ltb_compare y x), (Z.compare_antisym y x).
  destruct (y ?= x); reflexivity.
Qed.

Lemma rewardStep_eq (baseFee acc : Z) (tx : ExecutionBlockTx) :
  rewardStep baseFee acc tx
  = Done (if counted baseFee tx then acc + contribution baseFee tx else acc).
Proof.
  unfold rewardStep, counted, contribution.
  rewrite (hexToBigInt_parseHex (GasPrice tx)).
  destruct (parseHex (GasPrice tx)) as [gp|]; cbn [Go.bind];
    [|destruct (hexToBigInt (GasPrice tx)) as [[?|?]|?]; reflexivity].
  rewrite (hexToBigInt_parseHex (Gas tx)).
  destruct (parseHex (Gas tx)) as [g|]; cbn [Go.bind];
    [|destruct (hexToBigInt (Gas tx)) as [[?|?]|?]; reflexivity].
  rewrite Cmp_pos. destruct (baseFee <? gp); reflexivity.
Qed.

Lemma rewardLoop_eq (baseFee : Z) (txs : list ExecutionBlockTx) :
  forall acc,
    rewardLoop baseFee txs acc = Done (acc + sumOfContributions baseFee txs).
Proof.
  unfold sumOfContributions.
  induction txs as [|tx txs IH]; intros acc; simpl.
  - now rewrite Z.add_0_r.
  - rewrite rewardStep_eq. cbn [Go.bind].
    destruct (counted baseFee tx); rewrite IH; simpl; f_equal; lia.
Qed.

Lemma totalRewardWei_eq (baseFee : Z) (txs : list ExecutionBlockTx) :
  totalRewardWei baseFee txs = Done (sumOfContributions baseFee txs).
Proof. unfold totalRewardWei. now rewrite rewardLoop_eq. Qed.

(** For a positive divisor the Euclidean quotient of [big.Int.Div] is
    the floor quotient. *)
Lemma Div_pos (x y : Z) : 0 < y -> big.Div x y = Done (x / y).
Proof.
  intros Hy. unfold big.Div.
  replace (y =? 0) with false by (symmetry; apply Z.eqb_neq; lia).
  replace (y <? 0) with false by (symmetry; apply Z.ltb_ge; lia).
  pose proof (Z.quot_rem' x y) as Hqr.
  destruct (Z.ltb_spec (Z.rem x y) 0) as [Hneg|Hpos]; f_equal.
  - assert (x <= 0) as Hx.
    { destruct (Z.le_gt_cases x 0) as [|Hgt]; [assumption|].
      pose proof (Z.rem_bound_pos x y) as Hb. lia. }
    pose proof (Z.rem_bound_pos_neg x y Hy Hx) as Hb.
    apply Z.div_unique with (r := Z.rem x y + y); [lia | lia].
  - assert (Z.rem x y < y) as Hb.
    { pose proof (Z.rem_bound_abs x y) as Ha. lia. }
    apply Z.div_unique with (r := Z.rem x y); [lia | lia].
Qed.

Lemma rewardInGwei_eq (total : Z) :
  rewardInGwei total = Done (total / gwei).
Proof. unfold rewardInGwei, big.NewInt. now rewrite Div_pos. Qed.

Lemma rewardResponse_ok (blk : ExecutionBlockFullResponse) (baseFee : Z) :
  parsesTo (res_BaseFeePerGas (Result blk)) baseFee ->
  rewardResponse blk
  = Done (okResponse
            (blockStatus blk)
            (sumOfContributions baseFee (Transactions (Result blk)) / gwei)).
Proof.
  intros Hbf. unfold rewardResponse, parsesTo in *. rewrite Hbf.
  cbn [Go.bind]. rewrite totalRewardWei_eq. cbn [Go.bind].
  rewrite rewardInGwei_eq. reflexivity.
Qed.

Lemma rewardResponse_bad_fee (blk : ExecutionBlockFullResponse) :
  failsToParse (res_BaseFeePerGas (Result blk)) ->
  rewardResponse blk
  = Done (JSON http.StatusInternalServerError (errorH "invalid base fee")).
Proof.
  intros [msg Hm]. unfold rewardResponse. now rewrite Hm.
Qed.

Lemma sumOfContributions_app (baseFee : Z) (xs ys : list ExecutionBlockTx) :
  sumOfContributions baseFee (xs ++ ys)
  = sumOfContributions baseFee xs + sumOfContributions baseFee ys.
Proof.
  unfold sumOfContributions. rewrite filter_app, map_app.
  induction (map (contribution baseFee) (filter (counted baseFee) xs))
    as [|z zs IH]; simpl; lia.
Qed.

Lemma sumOfContributions_skip (baseFee : Z) (tx : ExecutionBlockTx)
      (txs : list ExecutionBlockTx) :
  counted baseFee tx = false ->
  sumOfContributions baseFee (tx :: txs) = sumOfContributions baseFee txs.
Proof. intros H. unfold sumOfContributions. simpl. now rewrite H. Qed.

Lemma sumOfContributions_none (baseFee : Z) (txs : list ExecutionBlockTx) :
  (forall tx, In tx txs -> counted baseFee tx = false) ->
  sumOfContributions baseFee txs = 0.
Proof.
  induction txs as [|tx txs IH]; intros H; [reflexivity|].
  rewrite sumOfContributions_skip by (apply H; now left).
  apply IH. intros t Ht. apply H. now right.
Qed.

Lemma sumOfContributions_nonneg (baseFee : Z) (txs : list ExecutionBlockTx) :
  countedGasNonneg baseFee txs -> 0 <= sumOfContributions baseFee txs.
Proof.
  induction txs as [|tx txs IH]; intros H; [reflexivity|].
  assert (0 <= sumOfContributions baseFee txs) as Hrest.
  { apply IH. intros t g Ht. apply H. now right. }
  destruct (counted baseFee tx) eqn:Hc.
  - pose proof Hc as Hc'. apply counted_iff in Hc' as (gp & g & Hgp & Hg & Hlt).
    assert (0 <= g) as Hg0 by (apply (H tx g); [now left | exact Hc | exact Hg]).
    assert (0 <= contribution baseFee tx) as Hcontrib.
    { unfold contribution. apply parseHex_Some in Hgp, Hg. rewrite Hgp, Hg.
      apply Z.mul_nonneg_nonneg; lia. }
    unfold sumOfContributions in *. simpl. rewrite Hc. simpl. lia.
  - now rewrite sumOfContributions_skip.
Qed.

Lemma unparsable_not_counted (baseFee : Z) (tx : ExecutionBlockTx) :
  failsToParse (GasPrice tx) \/ failsToParse (Gas tx) ->
  counted baseFee tx = false.
Proof.
  unfold counted. intros [H|H]; apply parseHex_None in H; rewrite H.
  - reflexivity.
  - now destruct (parseHex (GasPrice tx)).
Qed.

End Reward.

(* ================================================================= *)
(** ** Status classification *)

Section Status.

Lemma len_hexOfBytes (data : list Byte.byte) :
  len (hexOfBytes data) = 2 * Z.of_nat (List.length data).
Proof.
  unfold hexOfBytes.
  induction data as [|b data IH]; [reflexivity|].
  cbn [fold_right List.length]. unfold byteHex at 1.
  rewrite !len_cons, IH. lia.
Qed.

Lemma len_encodeHexData (data : list Byte.byte) :
  len (encodeHexData data) = 2 + 2 * Z.of_nat (List.length data).
Proof.
  unfold encodeHexData.
  change ("0x" ++ hexOfBytes data)%string
    with (String.String "0" (String.String "x" (hexOfBytes data))).
  rewrite !len_cons, len_hexOfBytes. lia.
Qed.

Lemma blockStatus_relay (blk : ExecutionBlockFullResponse) :
  blockStatus blk = "relay" <-> 20 < len (res_ExtraData (Result blk)).
Proof.
  unfold blockStatus.
  destruct (Z.ltb_spec 20 (len (res_ExtraData (Result blk)))) as [H|H];
    split; intros E; try reflexivity; try assumption;
    try discriminate; lia.
Qed.

Lemma blockStatus_vanilla (blk : ExecutionBlockFullResponse) :
  blockStatus blk = "vanilla" <-> len (res_ExtraData (Result blk)) <= 20.
Proof.
  unfold blockStatus.
  destruct (Z.ltb_spec 20 (len (res_ExtraData (Result blk)))) as [H|H];
    split; intros E; try reflexivity; try assumption;
    try discriminate; lia.
Qed.

End Status.

(** C1, as the code has it.  The status is "relay" exactly when the
    extra-data string of the execution block, taken as received (the
    0x-prefixed hexadecimal text, not decoded), is longer than 20 bytes,
    and "vanilla" otherwise; a string of exactly 20 bytes gives "vanilla".
    Since the text of [n] data bytes is 2 + 2n bytes long, the status is
    "relay" exactly when the field holds more than 9 bytes of data.  This
    status is the one reported in the response. *)
Theorem status_by_extra_data_text :
  forall blk : ExecutionBlockFullResponse,
    (blockStatus blk = "relay" <-> 20 < len (res_ExtraData (Result blk)))
    /\ (blockStatus blk = "vanilla" <-> len (res_ExtraData (Result blk)) <= 20)
    /\ (forall data,
           res_ExtraData (Result blk) = encodeHexData data ->
           (blockStatus blk = "relay" <-> 9 < Z.of_nat (List.length data)))
    /\ (forall baseFee,
           parsesTo (res_BaseFeePerGas (Result blk)) baseFee ->
           exists reward,
             rewardResponse blk = Done (okResponse (blockStatus blk) reward)).
Proof.
  intros blk. split; [apply blockStatus_relay|].
  split; [apply blockStatus_vanilla|]. split.
  - intros data Hdata. rewrite blockStatus_relay, Hdata, len_encodeHexData.
    lia.
  - intros baseFee Hbf. eexists. exact (rewardResponse_ok blk baseFee Hbf).
Qed.

(** C1, as the specification words it, fails: an extra-data field that
    decodes to exactly 20 bytes is classified "relay", not "vanilla". *)
Lemma status_of_twenty_decoded_bytes_is_relay :
  res_ExtraData (Result blockWithTwentyBytes) = encodeHexData twentyBytes
  /\ List.length twentyBytes = 20%nat
  /\ blockStatus blockWithTwentyBytes = "relay"
  /\ blockStatus blockWithTwentyBytes <> "vanilla"
  /\ rewardResponse blockWithTwentyBytes = Done (okResponse "relay" 0).
Proof.
  repeat split; try reflexivity. vm_compute. discriminate.
Qed.

(* ================================================================= *)
(** ** Properties of the reward *)

(** C2, as the code has it.  [hexToBigInt] accepts a sign, so a gas field
    may parse to a negative number.  For every execution block in which
    every counted transaction has a gas value that is not negative, the
    computation returns a response, and the reward it reports (whenever
    the base fee parses) is greater than or equal to zero. *)
Theorem reward_nonneg_when_counted_gas_nonneg :
  forall blk : ExecutionBlockFullResponse,
    (forall baseFee,
        parsesTo (res_BaseFeePerGas (Result blk)) baseFee ->
        countedGasNonneg baseFee (Transactions (Result blk))) ->
    (failsToParse (res_BaseFeePerGas (Result blk))
     /\ rewardResponse blk
        = Done (JSON http.StatusInternalServerError (errorH "invalid base fee")))
    \/ (exists baseFee total reward,
           parsesTo (res_BaseFeePerGas (Result blk)) baseFee
           /\ totalRewardWei baseFee (Transactions (Result blk)) = Done total
           /\ 0 <= total
           /\ rewardInGwei total = Done reward
           /\ 0 <= reward
           /\ rewardResponse blk = Done (okResponse (blockStatus blk) reward)).
Proof.
  intros blk Hgas.
  destruct (hexToBigInt_returns (res_BaseFeePerGas (Result blk)))
    as [[baseFee Hbf] | Hfail].
  - right.
    pose proof (sumOfContributions_nonneg _ _ (Hgas baseFee Hbf)) as Hsum.
    exists baseFee, (sumOfContributions baseFee (Transactions (Result blk))),
      (sumOfContributions baseFee (Transactions (Result blk)) / gwei).
    split; [exact Hbf|]. split; [apply totalRewardWei_eq|].
    split; [exact Hsum|]. split; [apply rewardInGwei_eq|].
    split; [apply Z.div_pos; [exact Hsum | reflexivity]|].
    now apply rewardResponse_ok.
  - left. split; [exact Hfail | now apply rewardResponse_bad_fee].
Qed.

Lemma reward_nonneg_witness :
  exists baseFee total reward,
    parsesTo (res_BaseFeePerGas (Result mixedBlock)) baseFee
    /\ totalRewardWei baseFee (Transactions (Result mixedBlock)) = Done total
    /\ 0 <= total
    /\ rewardInGwei total = Done reward
    /\ 0 <= reward
    /\ rewardResponse mixedBlock = Done (okResponse (blockStatus mixedBlock) reward).
Proof.
  destruct (reward_nonneg_when_counted_gas_nonneg mixedBlock) as [[[msg Hm] _] | H].
  - intros baseFee Hbf tx g Hin _ Hg.
    simpl in Hin.
    destruct Hin as [<- | [<- | [<- | [<- | [<- | []]]]]];
      vm_compute in Hg; inversion Hg; lia.
  - vm_compute in Hm. discriminate.
  - exact H.
Defined.

(** C2, as the specification words it, fails: with a gas field that
    parses to a negative number the reward is negative. *)
Lemma negative_gas_gives_negative_reward :
  parsesTo "0x1" 1
  /\ parsesTo "0x2" 2
  /\ parsesTo "0x-3b9aca00" (-1000000000)
  /\ totalRewardWei 1 (Transactions (Result blockWithNegativeGas))
     = Done (-1000000000)
  /\ rewardResponse blockWithNegativeGas = Done (okResponse "vanilla" (-1))
  /\ big.String (-1) = "-1"
  /\ ~ (0 <= -1).
Proof.
  repeat split; try reflexivity. lia.
Qed.

(** C3.  For every execution block whose base fee parses, the total
    reward in wei is the sum of (gasPrice - baseFee) * gas over exactly
    the transactions whose gas price and gas both parse and whose gas
    price is strictly above the base fee.  A transaction whose gas price
    is at or below the base fee is not counted, and a block in which
    every transaction has a gas price at or below the base fee has
    reward 0. *)
Theorem total_reward_is_sum_over_counted :
  forall (blk : ExecutionBlockFullResponse) (baseFee : Z),
    parsesTo (res_BaseFeePerGas (Result blk)) baseFee ->
    totalRewardWei baseFee (Transactions (Result blk))
    = Done (fold_right Z.add 0
              (map (contribution baseFee)
                   (filter (counted baseFee) (Transactions (Result blk)))))
    /\ (forall tx,
           counted baseFee tx = true
           <-> exists gasPrice gas,
                 parsesTo (GasPrice tx) gasPrice /\ parsesTo (Gas tx) gas
                 /\ baseFee < gasPrice)
    /\ (forall tx gasPrice gas,
           parsesTo (GasPrice tx) gasPrice -> parsesTo (Gas tx) gas ->
           contribution baseFee tx = (gasPrice - baseFee) * gas)
    /\ (forall tx gasPrice,
           parsesTo (GasPrice tx) gasPrice -> gasPrice <= baseFee ->
           counted baseFee tx = false)
    /\ ((forall tx gasPrice,
            In tx (Transactions (Result blk)) ->
            parsesTo (GasPrice tx) gasPrice -> gasPrice <= baseFee) ->
        totalRewardWei baseFee (Transactions (Result blk)) = Done 0
        /\ rewardResponse blk = Done (okResponse (blockStatus blk) 0)).
Proof.
  intros blk baseFee Hbf.
  assert (forall tx gasPrice,
             parsesTo (GasPrice tx) gasPrice -> gasPrice <= baseFee ->
             counted baseFee tx = false) as Hcheap.
  { intros tx gp Hgp Hle. unfold counted.
    apply parseHex_Some in Hgp. rewrite Hgp.
    destruct (parseHex (Gas tx)); [apply Z.ltb_ge; exact Hle | reflexivity]. }
  split; [apply totalRewardWei_eq|].
  split; [intros tx; apply counted_iff|].
  split.
  { intros tx gp g Hgp Hg. unfold contribution.
    apply parseHex_Some in Hgp, Hg. now rewrite Hgp, Hg. }
  split; [exact Hcheap|].
  intros Hall.
  assert (sumOfContributions baseFee (Transactions (Result blk)) = 0) as Hzero.
  { apply sumOfContributions_none. intros tx Hin.
    destruct (parseHex (GasPrice tx)) as [gp|] eqn:Egp.
    - apply parseHex_Some in Egp. apply (Hcheap tx gp Egp).
      now apply (Hall tx gp).
    - unfold counted. now rewrite Egp. }
  split.
  - now rewrite totalRewardWei_eq, Hzero.
  - rewrite (rewardResponse_ok blk baseFee Hbf), Hzero. reflexivity.
Qed.

Lemma total_reward_is_sum_witness :
  totalRewardWei 1000000000 (Transactions (Result mixedBlock))
  = Done 971000000000000.
Proof.
  destruct (total_reward_is_sum_over_counted mixedBlock 1000000000) as [H _].
  - reflexivity.
  - rewrite H. reflexivity.
Defined.

(** C4.  For every execution block whose base fee parses, a transaction
    whose gas price or gas fails to parse is left out of the sum and does
    not make the computation fail: the total and the response are those
    of the same block with that transaction removed, and the response is
    the 200 one. *)
Theorem unparsable_transaction_is_skipped :
  forall (blk : ExecutionBlockFullResponse) (baseFee : Z)
         (before after : list ExecutionBlockTx) (tx : ExecutionBlockTx),
    parsesTo (res_BaseFeePerGas (Result blk)) baseFee ->
    Transactions (Result blk) = (before ++ tx :: after)%list ->
    failsToParse (GasPrice tx) \/ failsToParse (Gas tx) ->
    totalRewardWei baseFee (before ++ tx :: after)
    = totalRewardWei baseFee (before ++ after)
    /\ rewardResponse blk
       = rewardResponse (withTransactions blk (before ++ after))
    /\ exists reward,
         rewardResponse blk = Done (okResponse (blockStatus blk) reward).
Proof.
  intros blk baseFee before after tx Hbf Htxs Hfail.
  assert (sumOfContributions baseFee (before ++ tx :: after)
          = sumOfContributions baseFee (before ++ after)) as Hsum.
  { rewrite !sumOfContributions_app.
    now rewrite (sumOfContributions_skip baseFee tx after
                   (unparsable_not_counted baseFee tx Hfail)). }
  split; [now rewrite !totalRewardWei_eq, Hsum|].
  split.
  - rewrite (rewardResponse_ok blk baseFee Hbf).
    rewrite (rewardResponse_ok (withTransactions blk (before ++ after)) baseFee)
      by exact Hbf.
    rewrite Htxs, Hsum. reflexivity.
  - eexists. exact (rewardResponse_ok blk baseFee Hbf).
Qed.

Lemma unparsable_transaction_witness :
  totalRewardWei 1000000000 (Transactions (Result mixedBlock))
  = totalRewardWei 1000000000
      [mkTx "0x77359400" "0x5208"; mkTx "0x3b9aca00" "0x5208";
       mkTx "0x77359400" "21000"; mkTx "0x4a817c800" "0xc350"]
  /\ rewardResponse mixedBlock
     = rewardResponse
         (withTransactions mixedBlock
            [mkTx "0x77359400" "0x5208"; mkTx "0x3b9aca00" "0x5208";
             mkTx "0x77359400" "21000"; mkTx "0x4a817c800" "0xc350"])
  /\ exists reward,
       rewardResponse mixedBlock
       = Done (okResponse (blockStatus mixedBlock) reward).
Proof.
  apply (unparsable_transaction_is_skipped
           mixedBlock 1000000000
           [mkTx "0x77359400" "0x5208"; mkTx "0x3b9aca00" "0x5208"]
           [mkTx "0x77359400" "21000"; mkTx "0x4a817c800" "0xc350"]
           (mkTx "" "0x5208")).
  - reflexivity.
  - reflexivity.
  - left. exists "invalid hex format". reflexivity.
Defined.

(** C5.  For every total reward in wei that is not negative, the reward
    in gwei is the total divided by 1,000,000,000 with the remainder
    discarded: it is the truncated quotient, it never exceeds the exact
    ratio, and the part left out is less than one gwei.  The response
    carries this quotient in decimal.  A total of 1,999,999,999 wei is
    reported as "1". *)
Theorem gwei_conversion_truncates :
  forall total : Z,
    0 <= total ->
    exists reward,
      rewardInGwei total = Done reward
      /\ reward = Z.quot total 1000000000
      /\ reward * 1000000000 <= total < (reward + 1) * 1000000000
      /\ (forall blk baseFee,
             parsesTo (res_BaseFeePerGas (Result blk)) baseFee ->
             totalRewardWei baseFee (Transactions (Result blk)) = Done total ->
             rewardResponse blk = Done (okResponse (blockStatus blk) reward))
      /\ rewardInGwei 1999999999 = Done 1
      /\ big.String 1 = "1"
      /\ totalRewardWei 0 (Transactions (Result blockJustBelowTwoGwei))
         = Done 1999999999
      /\ rewardResponse blockJustBelowTwoGwei = Done (okResponse "vanilla" 1).
Proof.
  intros total Htotal. exists (total / gwei).
  split; [apply rewardInGwei_eq|].
  split; [symmetry; apply Z.quot_div_nonneg; [exact Htotal | reflexivity]|].
  split.
  { unfold gwei.
    pose proof (Z.div_mod total 1000000000) as Hdm.
    pose proof (Z.mod_pos_bound total 1000000000) as Hb. lia. }
  split.
  { intros blk baseFee Hbf Htot.
    rewrite (rewardResponse_ok blk baseFee Hbf).
    rewrite totalRewardWei_eq in Htot. inversion Htot. reflexivity. }
  repeat split; reflexivity.
Qed.

Lemma gwei_conversion_witness :
  exists reward,
    rewardInGwei 1999999999 = Done reward
    /\ reward = Z.quot 1999999999 1000000000
    /\ reward * 1000000000 <= 1999999999 < (reward + 1) * 1000000000.
Proof.
  destruct (gwei_conversion_truncates 1999999999) as (r & H1 & H2 & H3 & _).
  - lia.
  - exists r. repeat split; try assumption; apply H3.
Defined.

(** C6, as the code has it.  For every execution block whose transaction
    list is empty and whose base fee parses, the reward is 0; the status
    does not depend on the transactions: it is "vanilla" exactly when the
    extra-data string is at most 20 bytes long, and "relay" otherwise. *)
Theorem empty_block_has_zero_reward :
  forall (blk : ExecutionBlockFullResponse) (baseFee : Z),
    parsesTo (res_BaseFeePerGas (Result blk)) baseFee ->
    Transactions (Result blk) = [] ->
    totalRewardWei baseFee (Transactions (Result blk)) = Done 0
    /\ rewardResponse blk = Done (okResponse (blockStatus blk) 0)
    /\ big.String 0 = "0"
    /\ (blockStatus blk = "vanilla" <-> len (res_ExtraData (Result blk)) <= 20)
    /\ (blockStatus blk = "relay" <-> 20 < len (res_ExtraData (Result blk))).
Proof.
  intros blk baseFee Hbf Hnil.
  split; [now rewrite Hnil|].
  split; [rewrite (rewardResponse_ok blk baseFee Hbf), Hnil; reflexivity|].
  split; [reflexivity|].
  split; [apply blockStatus_vanilla | apply blockStatus_relay].
Qed.

Lemma empty_block_witness :
  totalRewardWei 7 (Transactions (Result emptyTaggedBlock)) = Done 0
  /\ rewardResponse emptyTaggedBlock
     = Done (okResponse (blockStatus emptyTaggedBlock) 0)
  /\ big.String 0 = "0"
  /\ (blockStatus emptyTaggedBlock = "vanilla"
      <-> len (res_ExtraData (Result emptyTaggedBlock)) <= 20)
  /\ (blockStatus emptyTaggedBlock = "relay"
      <-> 20 < len (res_ExtraData (Result emptyTaggedBlock))).
Proof.
  apply (empty_block_has_zero_reward emptyTaggedBlock 7); reflexivity.
Defined.

(** C6, as the specification words it, fails: a block without
    transactions whose extra-data string is longer than 20 bytes has
    status "relay". *)
Lemma empty_block_with_long_tag_is_relay :
  Transactions (Result emptyTaggedBlock) = []
  /\ parsesTo (res_BaseFeePerGas (Result emptyTaggedBlock)) 7
  /\ rewardResponse emptyTaggedBlock = Done (okResponse "relay" 0)
  /\ blockStatus emptyTaggedBlock <> "vanilla".
Proof.
  repeat split; try reflexivity. vm_compute. discriminate.
Qed.

(* ================================================================= *)
(** ** The services and the requests they issue *)

Section Services.

Variable c : services.ConsensusService.

(** [GetHeadSlot] issues the headers request and nothing else. *)
Lemma GetHeadSlot_log (node : http.Node) (log : list http.Request) :
  snd (services.GetHeadSlot c node log)
  = (log ++ [http.GET (headersURL c)])%list.
Proof.
  unfold services.GetHeadSlot, io_bind, client_Get, ret, headersURL.
  break_match; reflexivity.
Qed.

Lemma GetHeadSlot_run (node : http.Node) (log : list http.Request)
      (r : result Z) :
  fst (services.GetHeadSlot c node log) = Done r ->
  services.GetHeadSlot c node log
  = (Done r, (log ++ [http.GET (headersURL c)])%list).
Proof.
  intros H. pose proof (GetHeadSlot_log node log) as Hlog.
  destruct (services.GetHeadSlot c node log) as [r' log'].
  simpl in H, Hlog. now subst.
Qed.

Lemma wrap64_first_slot (slot : Z) :
  0 <= slot < uint64_modulus ->
  wrap64 (slot / services.SLOTS_PER_EPOCH * services.SLOTS_PER_EPOCH)
  = slot / 32 * 32.
Proof.
  intros Hs. unfold wrap64, services.SLOTS_PER_EPOCH.
  apply Z.mod_small.
  pose proof (Z.div_mod slot 32) as Hdm.
  pose proof (Z.mod_pos_bound slot 32) as Hb.
  assert (0 <= slot / 32) by (apply Z.div_pos; lia). lia.
Qed.

(** [GetSyncCommitteeDuties] issues one request, for the first slot of
    the epoch and the epoch. *)
Lemma GetSyncCommitteeDuties_log (slot : Z) (node : http.Node)
      (log : list http.Request) :
  0 <= slot < uint64_modulus ->
  snd (services.GetSyncCommitteeDuties c slot node log)
  = (log ++ [http.GET (services.syncCommitteesURL
                         (services.endpoint c) (slot / 32 * 32) (slot / 32))])%list.
Proof.
  intros Hs. unfold services.GetSyncCommitteeDuties.
  rewrite (wrap64_first_slot slot Hs).
  unfold io_bind, client_Get, ret, services.SLOTS_PER_EPOCH.
  break_match; reflexivity.
Qed.

End Services.

(** The reward response is a 200 or the 500 of a bad base fee. *)
Lemma rewardResponse_code (blk : ExecutionBlockFullResponse) :
  exists resp, rewardResponse blk = Done resp
               /\ (code resp = 200 \/ code resp = 500).
Proof.
  destruct (hexToBigInt_returns (res_BaseFeePerGas (Result blk)))
    as [[baseFee Hbf] | Hfail].
  - eexists. split; [exact (rewardResponse_ok blk baseFee Hbf) | now left].
  - eexists. split; [exact (rewardResponse_bad_fee blk Hfail) | now right].
Qed.

(* ================================================================= *)
(** ** The handlers *)

(** C8.  When the slot parameter parses to a slot and the head slot is
    known, a slot strictly greater than the head slot makes both
    [GetBlockReward] and [GetSyncDuties] answer 400 with their future-slot
    message, and the only request issued is the one for the headers: no
    beacon block, sync committee or execution block is fetched.  Both
    handlers use the same bound: each gives its future-slot answer
    exactly when headSlot < slot. *)
Theorem future_slot_is_rejected_without_fetch :
  forall (h : BlockRewardHandler) (slotParam : string) (slot headSlot : Z)
         (node : http.Node) (log : list http.Request),
    strconv.ParseUint10_64 slotParam = Ok slot ->
    fst (services.GetHeadSlot (consensusService h) node log)
    = Done (Ok headSlot) ->
    (headSlot < slot ->
     GetBlockReward h slotParam node log
     = (Done futureSlotReward,
        (log ++ [http.GET (headersURL (consensusService h))])%list)
     /\ GetSyncDuties h slotParam node log
        = (Done futureSlotDuties,
           (log ++ [http.GET (headersURL (consensusService h))])%list))
    /\ (fst (GetBlockReward h slotParam node log) = Done futureSlotReward
        <-> headSlot < slot)
    /\ (fst (GetSyncDuties h slotParam node log) = Done futureSlotDuties
        <-> headSlot < slot).
Proof.
  intros h slotParam slot headSlot node log Hparse Hhead.
  apply GetHeadSlot_run in Hhead.
  assert (headSlot < slot ->
          GetBlockReward h slotParam node log
          = (Done futureSlotReward,
             (log ++ [http.GET (headersURL (consensusService h))])%list)
          /\ GetSyncDuties h slotParam node log
             = (Done futureSlotDuties,
                (log ++ [http.GET (headersURL (consensusService h))])%list))
    as Hfuture.
  { intros Hlt. apply Z.ltb_lt in Hlt.
    unfold GetBlockReward, GetSyncDuties, io_bind.
    rewrite Hparse, Hhead, Hlt. split; reflexivity. }
  split; [exact Hfuture|].
  split; split.
  - (* block reward: every other answer differs from the future-slot one *)
    destruct (Z.ltb_spec headSlot slot) as [Hlt|Hge]; [intros _; exact Hlt|].
    assert ((headSlot <? slot) = false) as Hb by (apply Z.ltb_ge; exact Hge).
    unfold GetBlockReward, io_bind.
    rewrite Hparse, Hhead, Hb.
    unfold lift, ret, futureSlotReward.
    break_match; cbn [fst]; intros E; try discriminate E.
    match type of E with
    | rewardResponse ?blk = _ =>
        destruct (rewardResponse_code blk) as (resp & Hresp & Hcode)
    end.
    rewrite Hresp in E. inversion E; subst resp.
    cbn in Hcode. destruct Hcode; discriminate.
  - intros Hlt. destruct (Hfuture Hlt) as [E _]. now rewrite E.
  - destruct (Z.ltb_spec headSlot slot) as [Hlt|Hge]; [intros _; exact Hlt|].
    assert ((headSlot <? slot) = false) as Hb by (apply Z.ltb_ge; exact Hge).
    unfold GetSyncDuties, io_bind.
    rewrite Hparse, Hhead, Hb.
    unfold ret, futureSlotDuties.
    break_match; cbn [fst]; intros E; discriminate E.
  - intros Hlt. destruct (Hfuture Hlt) as [_ E]. now rewrite E.
Qed.

Lemma future_slot_witness :
  GetBlockReward sampleHandler "10590952" sampleNode []
  = (Done futureSlotReward, [headersRequest])
  /\ GetSyncDuties sampleHandler "10590952" sampleNode []
     = (Done futureSlotDuties, [headersRequest]).
Proof.
  destruct (future_slot_is_rejected_without_fetch
              sampleHandler "10590952" 10590952 10590951 sampleNode [])
    as [H _].
  - reflexivity.
  - reflexivity.
  - apply H. lia.
Defined.

(** C9.  For every slot, [GetSyncCommitteeDuties] computes
    epoch = slot / 32 and issues exactly one request, whose state_id is
    epoch * 32, the first slot of that epoch, and whose query parameter
    is the epoch.  Two slots with the same slot / 32 therefore issue the
    same request, and when the node gives the same response to it they
    return the same validator sequence (or the same error). *)
Theorem sync_duties_query_is_per_epoch :
  forall (c : services.ConsensusService) (slot : Z),
    0 <= slot < uint64_modulus ->
    (forall node log,
        snd (services.GetSyncCommitteeDuties c slot node log)
        = (log ++ [http.GET (services.endpoint c
                               ++ "/eth/v1/beacon/states/"
                               ++ fmt.verb_d (slot / 32 * 32)
                               ++ "/sync_committees?epoch="
                               ++ fmt.verb_d (slot / 32))%string])%list)
    /\ slot / 32 * 32 <= slot < slot / 32 * 32 + 32
    /\ (forall slot',
           0 <= slot' < uint64_modulus ->
           slot / 32 = slot' / 32 ->
           (forall node log,
               services.GetSyncCommitteeDuties c slot node log
               = services.GetSyncCommitteeDuties c slot' node log)
           /\ (forall node node' log log',
                  node (http.GET (services.syncCommitteesURL
                                    (services.endpoint c)
                                    (slot / 32 * 32) (slot / 32)))
                  = node' (http.GET (services.syncCommitteesURL
                                       (services.endpoint c)
                                       (slot' / 32 * 32) (slot' / 32))) ->
                  fst (services.GetSyncCommitteeDuties c slot node log)
                  = fst (services.GetSyncCommitteeDuties c slot' node' log'))).
Proof.
  intros c slot Hs.
  split; [intros node log; now apply GetSyncCommitteeDuties_log|].
  split.
  { pose proof (Z.div_mod slot 32) as Hdm.
    pose proof (Z.mod_pos_bound slot 32) as Hb. lia. }
  intros slot' Hs' Hepoch. split.
  - intros node log. unfold services.GetSyncCommitteeDuties.
    change services.SLOTS_PER_EPOCH with 32. now rewrite Hepoch.
  - intros node node' log log' Hsame.
    unfold services.GetSyncCommitteeDuties.
    rewrite (wrap64_first_slot slot Hs), (wrap64_first_slot slot' Hs').
    change services.SLOTS_PER_EPOCH with 32.
    unfold io_bind, client_Get. rewrite Hsame.
    unfold ret. break_match; reflexivity.
Qed.

Lemma sync_duties_witness :
  snd (services.GetSyncCommitteeDuties
         (consensusService sampleHandler) 10590951 sampleNode [])
  = [http.GET "http://node.example/eth/v1/beacon/states/10590944/sync_committees?epoch=330967"]
  /\ services.GetSyncCommitteeDuties
       (consensusService sampleHandler) 10590951 sampleNode []
     = services.GetSyncCommitteeDuties
         (consensusService sampleHandler) 10590944 sampleNode []
  /\ fst (services.GetSyncCommitteeDuties
            (consensusService sampleHandler) 10590951 sampleNode [])
     = Done (Ok ["1024"; "77"; "4096"]).
Proof.
  destruct (sync_duties_query_is_per_epoch
              (consensusService sampleHandler) 10590951)
    as (Hlog & _ & Hsame).
  - unfold uint64_modulus. lia.
  - split; [exact (Hlog sampleNode [])|].
    split; [|reflexivity].
    apply (Hsame 10590944); [unfold uint64_modulus; lia | reflexivity].
Defined.

(** The execution service reports an empty block number as its own
    error. *)
Lemma GetExecutionBlockByNumber_empty_number
      (e : services.ExecutionService) (blockNumberHex : string)
      (node : http.Node) (log : list http.Request)
      (resp : http.Response) (blk : ExecutionBlockFullResponse) :
  (forall body, node (http.POST (services.es_endpoint e)
                                "application/json" body) = Ok resp) ->
  http.StatusCode resp = http.StatusOK ->
  http.DecodeExecutionBlock (http.RespBody resp) = Ok blk ->
  Number (Result blk) = "" ->
  fst (services.GetExecutionBlockByNumber e blockNumberHex node log)
  = Done (Err "block not found on execution layer").
Proof.
  intros Hnode Hcode Hdecode Hnum.
  unfold services.GetExecutionBlockByNumber, io_bind, client_Post.
  rewrite Hnode, Hcode, Hdecode, Hnum. reflexivity.
Qed.

(** [GetBlockReward] answers 500 to every error of the execution
    service, whatever its message. *)
Lemma GetBlockReward_execution_error
      (h : BlockRewardHandler) (slotParam : string) (slot headSlot : Z)
      (node : http.Node) (log log1 log2 log3 : list http.Request)
      (beaconBlock : BeaconBlockResponse) (blockNumberInt : Z) (msg : string) :
  strconv.ParseUint10_64 slotParam = Ok slot ->
  services.GetHeadSlot (consensusService h) node log
  = (Done (Ok headSlot), log1) ->
  slot <= headSlot ->
  services.GetBeaconBlockBySlot (consensusService h) slot node log1
  = (Done (Ok beaconBlock), log2) ->
  strconv.ParseUint10_64
    (BlockNumber (Data_Message_Body_ExecutionPayload beaconBlock))
  = Ok blockNumberInt ->
  services.GetExecutionBlockByNumber
    (executionService h) ("0x" ++ fmt.verb_x blockNumberInt) node log2
  = (Done (Err msg), log3) ->
  GetBlockReward h slotParam node log
  = (Done (JSON http.StatusInternalServerError
                (errorH "failed to get execution block")), log3).
Proof.
  intros Hparse Hhead Hle Hblock Hnum Hexec.
  unfold GetBlockReward, io_bind. rewrite Hparse, Hhead.
  replace (headSlot <? slot) with false by (symmetry; apply Z.ltb_ge; exact Hle).
  rewrite Hblock.
  destruct (BlockNumber (Data_Message_Body_ExecutionPayload beaconBlock))
    as [|ch rest] eqn:Ebn; [discriminate Hnum|].
  cbn [String.eqb]. rewrite Hnum, Hexec. reflexivity.
Qed.

(** C7.  On the sample node, which answers [eth_getBlockByNumber] with an
    empty block number, the execution service returns its own
    "block not found on execution layer" error, and [GetBlockReward]
    answers 500 "failed to get execution block"; the missing beacon block
    of slot 10590950, in the same handler, is answered 404. *)
Theorem missing_execution_block_is_answered_500 :
  services.GetExecutionBlockByNumber
    (executionService sampleHandler) "0x14689c0" sampleNode []
  = (Done (Err "block not found on execution layer"), [executionRequest])
  /\ GetBlockReward sampleHandler "10590951" sampleNode []
     = (Done (JSON 500 (errorH "failed to get execution block")),
        [headersRequest; blockRequest; executionRequest])
  /\ fst (GetBlockReward sampleHandler "10590950" sampleNode [])
     = Done (JSON 404 (errorH "slot not found/missed")).
Proof.
  repeat split; reflexivity.
Qed.

(* ================================================================= *)
(** ** strconv.ParseUint in base 10 *)

Section ParseUint.

Let cutoff : Z := (uint64_modulus - 1) / 10 + 1.
Let maxVal : Z := uint64_modulus - 1.

Lemma parseUintLoop_cons (base c m : Z) (ch : ascii) (rest : string) (n : Z) :
  strconv.parseUintLoop base c m (String.String ch rest) n
  = match (if (48 <=? byte_of ch) && (byte_of ch <=? 57)
           then Some (byte_of ch - 48)
           else if (97 <=? Z.lor (byte_of ch) 32)
                   && (Z.lor (byte_of ch) 32 <=? 122)
                then Some (Z.lor (byte_of ch) 32 - 97 + 10)
                else None) with
    | None => Err strconv.ErrSyntax
    | Some d =>
        if base <=? d then Err strconv.ErrSyntax
        else if c <=? n then Err strconv.ErrRange
        else if (wrap64 (wrap64 (n * base) + d) <? wrap64 (n * base))
                || (m <? wrap64 (wrap64 (n * base) + d))
             then Err strconv.ErrRange
             else strconv.parseUintLoop base c m rest
                    (wrap64 (wrap64 (n * base) + d))
    end.
Proof. reflexivity. Qed.

Lemma isDecimalDigit_range (ch : ascii) :
  isDecimalDigit ch = true <-> 48 <= byte_of ch <= 57.
Proof.
  unfold isDecimalDigit. rewrite andb_true_iff, !Z.leb_le. reflexivity.
Qed.

Lemma decimalValueFrom_ge (s : string) :
  forall acc, allDecimalDigits s = true -> 0 <= acc ->
              acc <= decimalValueFrom acc s.
Proof.
  induction s as [|ch rest IH]; intros acc Hall Hacc; simpl in *; [lia|].
  apply andb_true_iff in Hall as [Hc Hrest].
  apply isDecimalDigit_range in Hc.
  specialize (IH (acc * 10 + (byte_of ch - 48)) Hrest). lia.
Qed.

(** On a run of digits the loop returns the number the digits denote, or
    a range error when that number does not fit 64 bits. *)
Lemma parseUintLoop_digits (s : string) :
  forall acc,
    allDecimalDigits s = true -> 0 <= acc < uint64_modulus ->
    strconv.parseUintLoop 10 cutoff maxVal s acc
    = if decimalValueFrom acc s <? uint64_modulus
      then Ok (decimalValueFrom acc s)
      else Err strconv.ErrRange.
Proof.
  assert (cutoff = 1844674407370955162) as Hcut by reflexivity.
  assert (maxVal = 18446744073709551615) as Hmax by reflexivity.
  assert (uint64_modulus = 18446744073709551616) as Hmod by reflexivity.
  induction s as [|ch rest IH]; intros acc Hall Hacc.
  - simpl. now replace (acc <? uint64_modulus) with true
      by (symmetry; apply Z.ltb_lt; lia).
  - simpl in Hall. apply andb_true_iff in Hall as [Hc Hrest].
    pose proof Hc as Hrange. apply isDecimalDigit_range in Hrange.
    unfold isDecimalDigit in Hc.
    rewrite parseUintLoop_cons, Hc.
    replace (10 <=? byte_of ch - 48) with false
      by (symmetry; apply Z.leb_gt; lia).
    cbn [decimalValueFrom].
    pose proof (decimalValueFrom_ge rest (acc * 10 + (byte_of ch - 48)) Hrest)
      as Hge.
    destruct (Z.leb_spec cutoff acc) as [Hover|Hfits].
    + replace (decimalValueFrom _ rest <? uint64_modulus) with false
        by (symmetry; apply Z.ltb_ge; lia).
      reflexivity.
    + assert (wrap64 (acc * 10) = acc * 10) as Hw
          by (apply Z.mod_small; lia).
      rewrite Hw.
      destruct (Z.lt_ge_cases (acc * 10 + (byte_of ch - 48)) uint64_modulus)
        as [Hin|Hout].
      * assert (wrap64 (acc * 10 + (byte_of ch - 48))
                = acc * 10 + (byte_of ch - 48)) as Hw1
            by (apply Z.mod_small; lia).
        rewrite Hw1.
        replace (acc * 10 + (byte_of ch - 48) <? acc * 10) with false
          by (symmetry; apply Z.ltb_ge; lia).
        replace (maxVal <? acc * 10 + (byte_of ch - 48)) with false
          by (symmetry; apply Z.ltb_ge; lia).
        cbn [orb]. apply IH; [exact Hrest | lia].
      * assert (wrap64 (acc * 10 + (byte_of ch - 48))
                = acc * 10 + (byte_of ch - 48) - uint64_modulus) as Hw1.
        { unfold wrap64. symmetry.
          apply Z.mod_unique with (q := 1); lia. }
        rewrite Hw1.
        replace (acc * 10 + (byte_of ch - 48) - uint64_modulus <? acc * 10)
          with true by (symmetry; apply Z.ltb_lt; lia).
        cbn [orb].
        replace (decimalValueFrom _ rest <? uint64_modulus) with false
          by (symmetry; apply Z.ltb_ge; lia).
        reflexivity.
Qed.

(** A byte that is no decimal digit ends the loop with an error. *)
Lemma parseUintLoop_not_digits (s : string) :
  forall acc,
    allDecimalDigits s = false ->
    exists msg, strconv.parseUintLoop 10 cutoff maxVal s acc = Err msg.
Proof.
  induction s as [|ch rest IH]; intros acc Hall; [discriminate|].
  simpl in Hall. rewrite parseUintLoop_cons.
  destruct (isDecimalDigit ch) eqn:Hc.
  - unfold isDecimalDigit in Hc. rewrite Hc.
    cbn [andb] in Hall.
    destruct (10 <=? byte_of ch - 48); [eexists; reflexivity|].
    destruct (cutoff <=? acc); [eexists; reflexivity|].
    destruct (_ || _); [eexists; reflexivity | now apply IH].
  - unfold isDecimalDigit in Hc. rewrite Hc.
    destruct ((97 <=? Z.lor (byte_of ch) 32) && (Z.lor (byte_of ch) 32 <=? 122))
      eqn:Hletter; [|eexists; reflexivity].
    apply andb_true_iff in Hletter as [Hlo _]. apply Z.leb_le in Hlo.
    replace (10 <=? Z.lor (byte_of ch) 32 - 97 + 10) with true
      by (symmetry; apply Z.leb_le; lia).
    eexists; reflexivity.
Qed.

(** [ParseUint(s, 10, 64)] succeeds exactly on the decimal numerals of
    the unsigned 64-bit integers, with the number they denote. *)
Lemma ParseUint10_64_numeral (s : string) :
  isUint64Numeral s = true ->
  strconv.ParseUint10_64 s = Ok (decimalValue s).
Proof.
  unfold isUint64Numeral. rewrite !andb_true_iff.
  intros [[Hne Hall] Hlt]. destruct s as [|ch rest]; [discriminate|].
  unfold strconv.ParseUint10_64.
  change (strconv.parseUintLoop 10 cutoff maxVal (String.String ch rest) 0
          = Ok (decimalValue (String.String ch rest))).
  rewrite parseUintLoop_digits by (try exact Hall; vm_compute; split; congruence).
  fold (decimalValue (String.String ch rest)). now rewrite Hlt.
Qed.

Lemma ParseUint10_64_not_numeral (s : string) :
  isUint64Numeral s = false ->
  exists msg, strconv.ParseUint10_64 s = Err msg.
Proof.
  unfold isUint64Numeral. intros H.
  destruct s as [|ch rest]; [eexists; reflexivity|].
  cbn [String.eqb negb andb] in H.
  unfold strconv.ParseUint10_64.
  change (exists msg,
             strconv.parseUintLoop 10 cutoff maxVal (String.String ch rest) 0
             = Err msg).
  destruct (allDecimalDigits (String.String ch rest)) eqn:Hall.
  - rewrite parseUintLoop_digits
      by (try exact Hall; vm_compute; split; congruence).
    fold (decimalValue (String.String ch rest)).
    cbn [andb] in H. rewrite H. eexists; reflexivity.
  - now apply parseUintLoop_not_digits.
Qed.

Lemma ParseUint10_64_ok_iff (s : string) (n : Z) :
  strconv.ParseUint10_64 s = Ok n
  <-> isUint64Numeral s = true /\ decimalValue s = n.
Proof.
  split.
  - intros H. destruct (isUint64Numeral s) eqn:Hnum.
    + rewrite (ParseUint10_64_numeral s Hnum) in H. inversion H. auto.
    + destruct (ParseUint10_64_not_numeral s Hnum) as [msg Hm].
      rewrite Hm in H. discriminate.
  - intros [Hnum <-]. now apply ParseUint10_64_numeral.
Qed.

Lemma decimalValueFrom_nonneg (s : string) :
  forall acc, allDecimalDigits s = true -> 0 <= acc ->
              0 <= decimalValueFrom acc s.
Proof.
  intros acc Hall Hacc. pose proof (decimalValueFrom_ge s acc Hall Hacc). lia.
Qed.

(** A parsed slot is an unsigned 64-bit integer. *)
Lemma ParseUint10_64_range (s : string) (n : Z) :
  strconv.ParseUint10_64 s = Ok n -> 0 <= n < uint64_modulus.
Proof.
  intros H. apply ParseUint10_64_ok_iff in H as [Hnum <-].
  unfold isUint64Numeral in Hnum. rewrite !andb_true_iff in Hnum.
  destruct Hnum as [[_ Hall] Hlt]. apply Z.ltb_lt in Hlt.
  split; [|exact Hlt]. now apply decimalValueFrom_nonneg.
Qed.

End ParseUint.

(* ================================================================= *)
(** ** The value of a hexadecimal literal *)

Section HexValue.

Lemma digitVal_16_value (c : ascii) :
  isHexDigit c = true ->
  big.digitVal 16 c = hexDigitValue c /\ 0 <= hexDigitValue c <= 15.
Proof.
  assert (implb (isHexDigit c)
                ((big.digitVal 16 c =? hexDigitValue c)
                 && (0 <=? hexDigitValue c) && (hexDigitValue c <=? 15))
          = true) as H.
  { destruct c as [b0 b1 b2 b3 b4 b5 b6 b7];
      destruct b0, b1, b2, b3, b4, b5, b6, b7; reflexivity. }
  intros Hc. rewrite Hc in H. cbn [implb] in H.
  rewrite !andb_true_iff in H. destruct H as [[H1 H2] H3].
  apply Z.eqb_eq in H1. apply Z.leb_le in H2, H3. auto.
Qed.

Lemma hexDigit_not_sign (c : ascii) :
  isHexDigit c = true -> Ascii.eqb c "-" = false /\ Ascii.eqb c "+" = false.
Proof.
  intros Hc. split.
  - destruct (Ascii.eqb_spec c "-") as [-> |]; [discriminate Hc | reflexivity].
  - destruct (Ascii.eqb_spec c "+") as [-> |]; [discriminate Hc | reflexivity].
Qed.

Lemma natScanLoop_value (s : string) :
  forall z n, allHexDigits s = true ->
    big.natScanLoop 16 s z n
    = (hexValueFrom z s, (n + String.length s)%nat, EmptyString).
Proof.
  induction s as [|c s IH]; intros z n Hall; simpl in *.
  - now rewrite Nat.add_0_r.
  - apply andb_true_iff in Hall as [Hc Hs].
    rewrite digitVal_16_hex, Hc. cbn [negb].
    destruct (digitVal_16_value c Hc) as [-> _].
    rewrite (IH _ (S n) Hs). f_equal. f_equal. lia.
Qed.

Lemma hexValueFrom_nonneg (s : string) :
  forall acc, allHexDigits s = true -> 0 <= acc -> 0 <= hexValueFrom acc s.
Proof.
  induction s as [|c s IH]; intros acc Hall Hacc; simpl in *; [exact Hacc|].
  apply andb_true_iff in Hall as [Hc Hs].
  destruct (digitVal_16_value c Hc) as [_ Hb].
  apply IH; [exact Hs | lia].
Qed.

Lemma natScan_value (s : string) :
  s <> EmptyString -> allHexDigits s = true ->
  big.natScan 16 s = Some (hexValue s, EmptyString).
Proof.
  intros Hne Hall. unfold big.natScan.
  rewrite (natScanLoop_value s 0 0%nat Hall).
  destruct s as [|c s]; [congruence | reflexivity].
Qed.

Lemma SetString_unsigned (s : string) :
  s <> EmptyString -> allHexDigits s = true ->
  big.SetString s 16 = Some (hexValue s).
Proof.
  intros Hne Hall. unfold big.SetString, big.scan.
  assert (big.scanSign s = Some (false, s)) as Hsign.
  { destruct s as [|c r]; [congruence|]. simpl in Hall. apply andb_true_iff in Hall as [Hc _].
    destruct (hexDigit_not_sign c Hc) as [Hm Hp].
    unfold big.scanSign. now rewrite Hm, Hp. }
  rewrite Hsign, (natScan_value s Hne Hall).
  now rewrite andb_false_r.
Qed.

Lemma SetString_plus (s : string) :
  s <> EmptyString -> allHexDigits s = true ->
  big.SetString (String.String "+" s) 16 = Some (hexValue s).
Proof.
  intros Hne Hall. unfold big.SetString, big.scan.
  cbn [big.scanSign Ascii.eqb Bool.eqb].
  rewrite (natScan_value s Hne Hall). now rewrite andb_false_r.
Qed.

Lemma SetString_minus (s : string) :
  s <> EmptyString -> allHexDigits s = true ->
  big.SetString (String.String "-" s) 16 = Some (- hexValue s).
Proof.
  intros Hne Hall. unfold big.SetString, big.scan.
  cbn [big.scanSign Ascii.eqb Bool.eqb].
  rewrite (natScan_value s Hne Hall). rewrite andb_true_r.
  destruct (Z.eqb_spec (hexValue s) 0) as [E|E]; cbn [negb].
  - now rewrite E.
  - reflexivity.
Qed.

End HexValue.

(** X1.  The value [hexToBigInt] returns.  After the prefix 0x, a run of
    one or more hexadecimal digits (upper or lower case, leading zeros
    allowed) is read as the number it denotes, which is never negative;
    a plus sign before the digits changes nothing and a minus sign
    negates the number. *)
Theorem hexToBigInt_value :
  forall digits : string,
    digits <> EmptyString ->
    allHexDigits digits = true ->
    hexToBigInt ("0x" ++ digits) = Done (Ok (hexValue digits))
    /\ hexToBigInt ("0x+" ++ digits) = Done (Ok (hexValue digits))
    /\ hexToBigInt ("0x-" ++ digits) = Done (Ok (- hexValue digits))
    /\ 0 <= hexValue digits.
Proof.
  intros digits Hne Hall.
  split; [|split; [|split]].
  - rewrite (hexToBigInt_prefixed digits Hne).
    now rewrite (SetString_unsigned digits Hne Hall).
  - change ("0x+" ++ digits)%string
      with ("0x" ++ String.String "+" digits)%string.
    rewrite hexToBigInt_prefixed by discriminate.
    now rewrite (SetString_plus digits Hne Hall).
  - change ("0x-" ++ digits)%string
      with ("0x" ++ String.String "-" digits)%string.
    rewrite hexToBigInt_prefixed by discriminate.
    now rewrite (SetString_minus digits Hne Hall).
  - apply hexValueFrom_nonneg; [exact Hall | reflexivity].
Qed.

Lemma hexToBigInt_value_witness :
  hexToBigInt "0x00Ff" = Done (Ok 255)
  /\ hexToBigInt "0x+00Ff" = Done (Ok 255)
  /\ hexToBigInt "0x-00Ff" = Done (Ok (-255))
  /\ 0 <= 255.
Proof.
  apply (hexToBigInt_value "00Ff"); [discriminate | reflexivity].
Defined.

(* ================================================================= *)
(** ** What the verbs %d and %x print *)

Section Printers.

Lemma decimal_string_acc (d : Decimal.uint) :
  forall acc,
    decimalValueFrom (Z.pos acc) (DecimalString.NilEmpty.string_of_uint d)
    = Z.pos (Pos.of_uint_acc d acc).
Proof.
  induction d; intros acc;
    cbn [Pos.of_uint_acc DecimalString.NilEmpty.string_of_uint decimalValueFrom];
    [reflexivity | rewrite <- IHd; f_equal; byte_of_literal; lia ..].
Qed.

Lemma decimal_string_value (d : Decimal.uint) :
  decimalValue (DecimalString.NilEmpty.string_of_uint d)
  = Z.of_N (Pos.of_uint d).
Proof.
  unfold decimalValue.
  induction d;
    cbn [Pos.of_uint DecimalString.NilEmpty.string_of_uint decimalValueFrom];
    [reflexivity | exact IHd
     | cbn [Z.of_N]; rewrite <- decimal_string_acc; reflexivity ..].
Qed.

Lemma decimal_string_digits (d : Decimal.uint) :
  allDecimalDigits (DecimalString.NilEmpty.string_of_uint d) = true.
Proof.
  induction d; cbn [DecimalString.NilEmpty.string_of_uint allDecimalDigits];
    [reflexivity | rewrite IHd; reflexivity ..].
Qed.

Lemma decimal_string_nonempty (d : Decimal.uint) :
  d <> Decimal.Nil -> DecimalString.NilEmpty.string_of_uint d <> EmptyString.
Proof. destruct d; [congruence | discriminate ..]. Qed.

(** What [%d] prints for a number that is not negative: a numeral without
    sign that denotes the number. *)
Lemma verb_d_numeral (n : Z) :
  0 <= n ->
  fmt.verb_d n <> EmptyString
  /\ allDecimalDigits (fmt.verb_d n) = true
  /\ decimalValue (fmt.verb_d n) = n.
Proof.
  intros Hn. destruct n as [|p|p]; [repeat split; discriminate | | lia].
  unfold fmt.verb_d.
  cbn [Z.to_int DecimalString.NilEmpty.string_of_int].
  split; [apply decimal_string_nonempty, DecimalPos.Unsigned.to_uint_nonnil|].
  split; [apply decimal_string_digits|].
  now rewrite decimal_string_value, DecimalPos.Unsigned.of_to.
Qed.

Lemma verb_d_uint64 (n : Z) :
  0 <= n < uint64_modulus -> isUint64Numeral (fmt.verb_d n) = true.
Proof.
  intros [Hn Hlt]. destruct (verb_d_numeral n Hn) as (Hne & Hall & Hval).
  unfold isUint64Numeral. rewrite Hall, Hval.
  replace (n <? uint64_modulus) with true by (symmetry; now apply Z.ltb_lt).
  destruct (fmt.verb_d n); [congruence | reflexivity].
Qed.

Lemma hex_string_acc (d : Hexadecimal.uint) :
  forall acc,
    hexValueFrom (Z.pos acc) (HexadecimalString.NilEmpty.string_of_uint d)
    = Z.pos (Pos.of_hex_uint_acc d acc).
Proof.
  induction d; intros acc;
    cbn [Pos.of_hex_uint_acc HexadecimalString.NilEmpty.string_of_uint
         hexValueFrom];
    [reflexivity | rewrite <- IHd; f_equal; byte_of_literal; lia ..].
Qed.

Lemma hex_string_value (d : Hexadecimal.uint) :
  hexValue (HexadecimalString.NilEmpty.string_of_uint d)
  = Z.of_N (Pos.of_hex_uint d).
Proof.
  unfold hexValue.
  induction d;
    cbn [Pos.of_hex_uint HexadecimalString.NilEmpty.string_of_uint hexValueFrom];
    [reflexivity | exact IHd
     | cbn [Z.of_N]; rewrite <- hex_string_acc; reflexivity ..].
Qed.

Lemma hex_string_digits (d : Hexadecimal.uint) :
  allHexDigits (HexadecimalString.NilEmpty.string_of_uint d) = true.
Proof.
  induction d; cbn [HexadecimalString.NilEmpty.string_of_uint allHexDigits];
    [reflexivity | rewrite IHd; reflexivity ..].
Qed.

(** What [%x] prints for a number that is not negative: hexadecimal
    digits that denote the number. *)
Lemma verb_x_numeral (n : Z) :
  0 <= n ->
  fmt.verb_x n <> EmptyString
  /\ allHexDigits (fmt.verb_x n) = true
  /\ hexValue (fmt.verb_x n) = n.
Proof.
  intros Hn. destruct n as [|p|p]; [repeat split; discriminate | | lia].
  unfold fmt.verb_x. cbn [Z.to_N N.to_hex_uint].
  pose proof (HexadecimalPos.Unsigned.to_uint_nonnil p) as Hnil.
  assert (HexadecimalString.NilZero.string_of_uint (Pos.to_hex_uint p)
          = HexadecimalString.NilEmpty.string_of_uint (Pos.to_hex_uint p)) as E.
  { destruct (Pos.to_hex_uint p); [congruence | reflexivity ..]. }
  rewrite E. split.
  - destruct (Pos.to_hex_uint p); [congruence | discriminate ..].
  - split; [apply hex_string_digits|].
    now rewrite hex_string_value, HexadecimalPos.Unsigned.of_to.
Qed.

End Printers.

(* ================================================================= *)
(** ** Outcomes of the consensus and execution services *)


Section ServiceRuns.

Variable c : services.ConsensusService.
Variable e : services.ExecutionService.
Variable node : http.Node.
Variable log : list http.Request.

Lemma GetBeaconBlockBySlot_log (slot : Z) :
  snd (services.GetBeaconBlockBySlot c slot node log)
  = (log ++ [blockRequestFor c slot])%list.
Proof.
  unfold services.GetBeaconBlockBySlot, io_bind, client_Get, ret,
    blockRequestFor.
  break_match; reflexivity.
Qed.

Lemma GetBeaconBlockBySlot_run (slot : Z) (r : result BeaconBlockResponse) :
  fst (services.GetBeaconBlockBySlot c slot node log) = Done r ->
  services.GetBeaconBlockBySlot c slot node log
  = (Done r, (log ++ [blockRequestFor c slot])%list).
Proof.
  intros H. pose proof (GetBeaconBlockBySlot_log slot) as Hlog.
  destruct (services.GetBeaconBlockBySlot c slot node log) as [r' log'].
  simpl in H, Hlog. now subst.
Qed.

Lemma GetExecutionBlockByNumber_log (blockNumberHex : string) :
  snd (services.GetExecutionBlockByNumber e blockNumberHex node log)
  = (log ++ [blockByNumberRequest e blockNumberHex])%list.
Proof.
  unfold services.GetExecutionBlockByNumber, io_bind, client_Post, ret,
    blockByNumberRequest, services.Marshal.
  cbn [services.Jsonrpc services.Method services.Params services.Id].
  break_match; reflexivity.
Qed.

Lemma GetExecutionBlockByNumber_run (blockNumberHex : string)
      (r : result ExecutionBlockFullResponse) :
  fst (services.GetExecutionBlockByNumber e blockNumberHex node log) = Done r ->
  services.GetExecutionBlockByNumber e blockNumberHex node log
  = (Done r, (log ++ [blockByNumberRequest e blockNumberHex])%list).
Proof.
  intros H. pose proof (GetExecutionBlockByNumber_log blockNumberHex) as Hlog.
  destruct (services.GetExecutionBlockByNumber e blockNumberHex node log)
    as [r' log'].
  simpl in H, Hlog. now subst.
Qed.

Lemma GetSyncCommitteeDuties_run (slot : Z) (r : result (list string)) :
  0 <= slot < uint64_modulus ->
  fst (services.GetSyncCommitteeDuties c slot node log) = Done r ->
  services.GetSyncCommitteeDuties c slot node log
  = (Done r, (log ++ [syncRequestFor c slot])%list).
Proof.
  intros Hs H. pose proof (GetSyncCommitteeDuties_log c slot node log Hs) as Hlog.
  destruct (services.GetSyncCommitteeDuties c slot node log) as [r' log'].
  simpl in H, Hlog. now subst.
Qed.

Lemma GetHeadSlot_returns :
  exists r, fst (services.GetHeadSlot c node log) = Done r.
Proof.
  unfold services.GetHeadSlot, io_bind, client_Get, ret.
  break_match; eexists; reflexivity.
Qed.

Lemma GetBeaconBlockBySlot_returns (slot : Z) :
  exists r, fst (services.GetBeaconBlockBySlot c slot node log) = Done r.
Proof.
  unfold services.GetBeaconBlockBySlot, io_bind, client_Get, ret.
  break_match; eexists; reflexivity.
Qed.

Lemma GetExecutionBlockByNumber_returns (blockNumberHex : string) :
  exists r,
    fst (services.GetExecutionBlockByNumber e blockNumberHex node log) = Done r.
Proof.
  unfold services.GetExecutionBlockByNumber, io_bind, client_Post, ret.
  break_match; eexists; reflexivity.
Qed.

Lemma GetSyncCommitteeDuties_returns (slot : Z) :
  exists r, fst (services.GetSyncCommitteeDuties c slot node log) = Done r.
Proof.
  unfold services.GetSyncCommitteeDuties, io_bind, client_Get, ret.
  break_match; eexists; reflexivity.
Qed.

End ServiceRuns.





Section Requests.

Lemma string_app_inv_head (a b b' : string) :
  (a ++ b = a ++ b')%string -> b = b'.
Proof.
  induction a as [|ch a IH]; simpl; intros H; [exact H|].
  inversion H. auto.
Qed.

Lemma verb_d_inj (n m : Z) :
  0 <= n -> 0 <= m -> fmt.verb_d n = fmt.verb_d m -> n = m.
Proof.
  intros Hn Hm E.
  destruct (verb_d_numeral n Hn) as (_ & _ & <-).
  destruct (verb_d_numeral m Hm) as (_ & _ & <-).
  now rewrite E.
Qed.

(** Two runs of decimal digits that are followed by a slash and agree as
    a whole agree part by part. *)
Lemma digits_before_slash (a : string) :
  forall b t t',
    allDecimalDigits a = true -> allDecimalDigits b = true ->
    (a ++ String.String "/" t = b ++ String.String "/" t')%string ->
    a = b /\ t = t'.
Proof.
  induction a as [|ch a IH]; intros b t t' Ha Hb E;
    destruct b as [|ch' b]; simpl in *.
  - inversion E. auto.
  - inversion E; subst ch'. discriminate Hb.
  - inversion E; subst ch. discriminate Ha.
  - inversion E; subst ch'.
    apply andb_true_iff in Ha as [_ Ha]. apply andb_true_iff in Hb as [_ Hb].
    destruct (IH b t t' Ha Hb H1) as [-> ->]. auto.
Qed.

End Requests.

(** X6.  The requests name what is asked for.  Two slots give the same
    beacon-block request only when they are the same slot, and the same
    sync-committee request exactly when they lie in the same epoch
    (slot / 32): slots of different epochs never share a request. *)
Theorem requests_identify_slot_and_epoch :
  forall (c : services.ConsensusService) (slot slot' : Z)
         (node node' : http.Node) (log : list http.Request),
    0 <= slot < uint64_modulus ->
    0 <= slot' < uint64_modulus ->
    (snd (services.GetBeaconBlockBySlot c slot node log)
     = snd (services.GetBeaconBlockBySlot c slot' node' log)
     <-> slot = slot')
    /\ (snd (services.GetSyncCommitteeDuties c slot node log)
        = snd (services.GetSyncCommitteeDuties c slot' node' log)
        <-> slot / 32 = slot' / 32).
Proof.
  intros c slot slot' node node' log Hs Hs'.
  rewrite !GetBeaconBlockBySlot_log.
  rewrite (GetSyncCommitteeDuties_log c slot node log Hs).
  rewrite (GetSyncCommitteeDuties_log c slot' node' log Hs').
  split; split.
  - intros E. apply app_inv_head in E. inversion E as [Eurl].
    apply string_app_inv_head in Eurl.
    apply (string_app_inv_head "/eth/v2/beacon/blocks/") in Eurl.
    apply verb_d_inj; [lia | lia | exact Eurl].
  - intros ->. reflexivity.
  - intros E. apply app_inv_head in E. inversion E as [Eurl].
    unfold services.syncCommitteesURL in Eurl.
    apply string_app_inv_head in Eurl.
    apply (string_app_inv_head "/eth/v1/beacon/states/") in Eurl.
    assert (0 <= slot / 32) as He by (apply Z.div_pos; lia).
    assert (0 <= slot' / 32) as He' by (apply Z.div_pos; lia).
    destruct (verb_d_numeral (slot / 32 * 32)) as (_ & Hd1 & _); [lia|].
    destruct (verb_d_numeral (slot' / 32 * 32)) as (_ & Hd2 & _); [lia|].
    change ("/sync_committees?epoch=" ++ fmt.verb_d (slot / 32))%string
      with (String.String "/" ("sync_committees?epoch=" ++ fmt.verb_d (slot / 32)))
      in Eurl.
    change ("/sync_committees?epoch=" ++ fmt.verb_d (slot' / 32))%string
      with (String.String "/" ("sync_committees?epoch=" ++ fmt.verb_d (slot' / 32)))
      in Eurl.
    destruct (digits_before_slash _ _ _ _ Hd1 Hd2 Eurl) as [_ Etail].
    apply string_app_inv_head in Etail.
    apply verb_d_inj; assumption.
  - intros E. now rewrite E.
Qed.

Lemma requests_identify_witness :
  (snd (services.GetBeaconBlockBySlot
          (consensusService sampleHandler) 10590951 sampleNode [])
   = snd (services.GetBeaconBlockBySlot
            (consensusService sampleHandler) 10590950 fullNode [])
   <-> 10590951 = 10590950)
  /\ (snd (services.GetSyncCommitteeDuties
             (consensusService sampleHandler) 10590951 sampleNode [])
      = snd (services.GetSyncCommitteeDuties
               (consensusService sampleHandler) 10590950 fullNode [])
      <-> 10590951 / 32 = 10590950 / 32).
Proof.
  apply (requests_identify_slot_and_epoch
           (consensusService sampleHandler) 10590951 10590950
           sampleNode fullNode []);
    unfold uint64_modulus; lia.
Defined.

(* ================================================================= *)
(** ** Answers of the handlers *)

(** X7.  A slot parameter that is not the decimal numeral of an unsigned
    64-bit integer (empty, signed, with a blank or a letter, or 2^64 and
    above) is answered 400 "invalid slot parameter" by both handlers
    before any request is issued; a numeral never gets this answer. *)
Theorem invalid_slot_parameter_is_rejected :
  forall (h : BlockRewardHandler) (slotParam : string)
         (node : http.Node) (log : list http.Request),
    (isUint64Numeral slotParam = false ->
     GetBlockReward h slotParam node log = (Done invalidSlot, log)
     /\ GetSyncDuties h slotParam node log = (Done invalidSlot, log))
    /\ (isUint64Numeral slotParam = true ->
        fst (GetBlockReward h slotParam node log) <> Done invalidSlot
        /\ fst (GetSyncDuties h slotParam node log) <> Done invalidSlot).
Proof.
  intros h slotParam node log. split.
  - intros Hbad. destruct (ParseUint10_64_not_numeral slotParam Hbad) as [msg Hm].
    unfold GetBlockReward, GetSyncDuties. rewrite Hm. split; reflexivity.
  - intros Hnum. pose proof (ParseUint10_64_numeral slotParam Hnum) as Hparse.
    unfold GetBlockReward, GetSyncDuties, io_bind. rewrite Hparse.
    unfold lift, ret, invalidSlot. split.
    + break_match; cbn [fst]; intros E; try discriminate E.
      match type of E with
      | rewardResponse ?blk = _ =>
          destruct (rewardResponse_code blk) as (resp & Hresp & Hcode)
      end.
      rewrite Hresp in E. inversion E; subst resp.
      cbn in Hcode. destruct Hcode; discriminate.
    + break_match; cbn [fst]; intros E; discriminate E.
Qed.

(** X8.  When the head slot cannot be obtained (transport error, status
    other than 200, undecodable body, no header, malformed slot), both
    handlers answer 500 "failed to fetch head slot" and issue no request
    beyond the one for the headers. *)
Theorem head_slot_failure_is_answered_500 :
  forall (h : BlockRewardHandler) (slotParam : string) (slot : Z)
         (node : http.Node) (log : list http.Request) (msg : string),
    strconv.ParseUint10_64 slotParam = Ok slot ->
    fst (services.GetHeadSlot (consensusService h) node log) = Done (Err msg) ->
    GetBlockReward h slotParam node log
    = (Done (JSON 500 (errorH "failed to fetch head slot")),
       (log ++ [http.GET (headersURL (consensusService h))])%list)
    /\ GetSyncDuties h slotParam node log
       = (Done (JSON 500 (errorH "failed to fetch head slot")),
          (log ++ [http.GET (headersURL (consensusService h))])%list).
Proof.
  intros h slotParam slot node log msg Hparse Hhead.
  apply GetHeadSlot_run in Hhead.
  unfold GetBlockReward, GetSyncDuties, io_bind.
  rewrite Hparse, Hhead. split; reflexivity.
Qed.

Lemma head_slot_failure_witness :
  GetBlockReward sampleHandler "7" unreachableNode []
  = (Done (JSON 500 (errorH "failed to fetch head slot")), [headersRequest])
  /\ GetSyncDuties sampleHandler "7" unreachableNode []
     = (Done (JSON 500 (errorH "failed to fetch head slot")), [headersRequest]).
Proof.
  apply (head_slot_failure_is_answered_500
           sampleHandler "7" 7 unreachableNode [] "connection refused");
    reflexivity.
Defined.



(** X10.  When the beacon block is obtained but its execution block
    number is not the decimal numeral of an unsigned 64-bit integer,
    [GetBlockReward] does not contact the execution layer: an empty
    number is answered 404 "no execution payload for this slot", any
    other such number 500 "invalid block number format". *)
Theorem block_number_must_be_a_numeral :
  forall (h : BlockRewardHandler) (slotParam : string) (slot headSlot : Z)
         (node : http.Node) (log : list http.Request)
         (beaconBlock : BeaconBlockResponse),
    strconv.ParseUint10_64 slotParam = Ok slot ->
    fst (services.GetHeadSlot (consensusService h) node log)
    = Done (Ok headSlot) ->
    slot <= headSlot ->
    fst (services.GetBeaconBlockBySlot
           (consensusService h) slot node
           (log ++ [http.GET (headersURL (consensusService h))])%list)
    = Done (Ok beaconBlock) ->
    isUint64Numeral
      (BlockNumber (Data_Message_Body_ExecutionPayload beaconBlock)) = false ->
    GetBlockReward h slotParam node log
    = (Done (if String.eqb
                  (BlockNumber (Data_Message_Body_ExecutionPayload beaconBlock))
                  ""
             then JSON 404 (errorH "no execution payload for this slot")
             else JSON 500 (errorH "invalid block number format")),
       (log ++ [http.GET (headersURL (consensusService h));
                blockRequestFor (consensusService h) slot])%list).
Proof.
  intros h slotParam slot headSlot node log beaconBlock
         Hparse Hhead Hle Hblock Hbad.
  apply GetHeadSlot_run in Hhead. apply GetBeaconBlockBySlot_run in Hblock.
  destruct (ParseUint10_64_not_numeral _ Hbad) as [m Hm].
  unfold GetBlockReward, io_bind. rewrite Hparse, Hhead.
  replace (headSlot <? slot) with false by (symmetry; apply Z.ltb_ge; exact Hle).
  rewrite Hblock. rewrite <- app_assoc.
  destruct (String.eqb _ ""); [reflexivity|].
  rewrite Hm. reflexivity.
Qed.

Lemma block_number_witness :
  GetBlockReward sampleHandler "4600000" preMergeNode []
  = (Done (JSON 404 (errorH "no execution payload for this slot")),
     [headersRequest;
      http.GET "http://node.example/eth/v2/beacon/blocks/4600000"]).
Proof.
  apply (block_number_must_be_a_numeral
           sampleHandler "4600000" 4600000 4700000 preMergeNode []
           {| Version := "deneb";
              Data_Message_Body_ExecutionPayload :=
                {| BlockNumber := ""; FeeRecipient := ""; ExtraData := "";
                   BaseFeePerGas := "7"; GasUsed := "0" |} |});
    try reflexivity. lia.
Defined.

(** X11.  When the beacon block carries a block number that is a decimal
    numeral, [GetBlockReward] issues three requests in this order: the
    headers, the beacon block of the slot, and eth_getBlockByNumber for
    0x followed by the number in lower-case hexadecimal.  The conversion
    from decimal to hexadecimal keeps the number: read back by
    [hexToBigInt], the parameter gives the number of the beacon block. *)
Theorem execution_block_is_requested_by_hex_number :
  forall (h : BlockRewardHandler) (slotParam : string) (slot headSlot : Z)
         (node : http.Node) (log : list http.Request)
         (beaconBlock : BeaconBlockResponse),
    strconv.ParseUint10_64 slotParam = Ok slot ->
    fst (services.GetHeadSlot (consensusService h) node log)
    = Done (Ok headSlot) ->
    slot <= headSlot ->
    fst (services.GetBeaconBlockBySlot
           (consensusService h) slot node
           (log ++ [http.GET (headersURL (consensusService h))])%list)
    = Done (Ok beaconBlock) ->
    isUint64Numeral
      (BlockNumber (Data_Message_Body_ExecutionPayload beaconBlock)) = true ->
    snd (GetBlockReward h slotParam node log)
    = (log ++ [http.GET (headersURL (consensusService h));
               blockRequestFor (consensusService h) slot;
               blockByNumberRequest
                 (executionService h)
                 ("0x" ++ fmt.verb_x
                            (decimalValue
                               (BlockNumber
                                  (Data_Message_Body_ExecutionPayload
                                     beaconBlock))))])%list
    /\ hexToBigInt
         ("0x" ++ fmt.verb_x
                    (decimalValue
                       (BlockNumber
                          (Data_Message_Body_ExecutionPayload beaconBlock))))
       = Done (Ok (decimalValue
                     (BlockNumber
                        (Data_Message_Body_ExecutionPayload beaconBlock)))).
Proof.
  intros h slotParam slot headSlot node log beaconBlock
         Hparse Hhead Hle Hblock Hnum.
  apply GetHeadSlot_run in Hhead. apply GetBeaconBlockBySlot_run in Hblock.
  pose proof (ParseUint10_64_numeral _ Hnum) as Hn.
  pose proof (ParseUint10_64_range _ _ Hn) as [Hpos _].
  set (number := BlockNumber (Data_Message_Body_ExecutionPayload beaconBlock))
    in *.
  split.
  - unfold GetBlockReward, io_bind. rewrite Hparse, Hhead.
    replace (headSlot <? slot) with false
      by (symmetry; apply Z.ltb_ge; exact Hle).
    rewrite Hblock. fold number.
    destruct (String.eqb_spec number "") as [Hempty|_].
    { rewrite Hempty in Hnum. discriminate. }
    rewrite Hn.
    destruct (GetExecutionBlockByNumber_returns
                (executionService h) node
                ((log ++ [http.GET (headersURL (consensusService h))])
                   ++ [blockRequestFor (consensusService h) slot])%list
                ("0x" ++ fmt.verb_x (decimalValue number))) as [r Hr].
    apply GetExecutionBlockByNumber_run in Hr. rewrite Hr.
    rewrite <- !app_assoc. destruct r; reflexivity.
  - destruct (verb_x_numeral (decimalValue number) Hpos) as (Hne & Hall & Hval).
    rewrite (hexToBigInt_prefixed _ Hne), (SetString_unsigned _ Hne Hall).
    now rewrite Hval.
Qed.

Lemma execution_request_witness :
  snd (GetBlockReward sampleHandler "10590951" sampleNode [])
  = [headersRequest; blockRequest; executionRequest]
  /\ hexToBigInt "0x14689c0" = Done (Ok 21400000).
Proof.
  apply (execution_block_is_requested_by_hex_number
           sampleHandler "10590951" 10590951 10590951 sampleNode []
           {| Version := "deneb";
              Data_Message_Body_ExecutionPayload :=
                {| BlockNumber := "21400000"; FeeRecipient := "";
                   ExtraData := ""; BaseFeePerGas := "7"; GasUsed := "0" |} |});
    first [reflexivity | lia].
Defined.

(** X12.  [GetBlockReward] answers 200 exactly when every step succeeds:
    the slot parameter parses, the head slot is obtained and is not below
    the slot, the beacon block is obtained, its block number parses, the
    execution block with that number is obtained and its base fee parses.
    The answer then carries the status and the reward (in gwei) of that
    execution block. *)
Theorem reward_answer_200_iff :
  forall (h : BlockRewardHandler) (slotParam : string)
         (node : http.Node) (log : list http.Request) (resp : Response),
    (fst (GetBlockReward h slotParam node log) = Done resp /\ code resp = 200)
    <-> exists slot headSlot beaconBlock number blk baseFee,
          strconv.ParseUint10_64 slotParam = Ok slot
          /\ fst (services.GetHeadSlot (consensusService h) node log)
             = Done (Ok headSlot)
          /\ slot <= headSlot
          /\ fst (services.GetBeaconBlockBySlot
                    (consensusService h) slot node
                    (log ++ [http.GET (headersURL (consensusService h))])%list)
             = Done (Ok beaconBlock)
          /\ strconv.ParseUint10_64
               (BlockNumber (Data_Message_Body_ExecutionPayload beaconBlock))
             = Ok number
          /\ fst (services.GetExecutionBlockByNumber
                    (executionService h) ("0x" ++ fmt.verb_x number) node
                    (log ++ [http.GET (headersURL (consensusService h));
                             blockRequestFor (consensusService h) slot])%list)
             = Done (Ok blk)
          /\ parsesTo (res_BaseFeePerGas (Result blk)) baseFee
          /\ resp = okResponse
                      (blockStatus blk)
                      (sumOfContributions baseFee (Transactions (Result blk))
                       / gwei).
Proof.
  intros h slotParam node log resp. split.
  - intros [Hresp Hcode].
    unfold GetBlockReward, io_bind in Hresp.
    destruct (strconv.ParseUint10_64 slotParam) as [slot|m] eqn:Hparse;
      [|not_a_200 Hresp Hcode].
    destruct (GetHeadSlot_returns (consensusService h) node log) as [rh Hh].
    rewrite (GetHeadSlot_run _ _ _ _ Hh) in Hresp.
    destruct rh as [headSlot|m]; [|not_a_200 Hresp Hcode].
    destruct (Z.ltb_spec headSlot slot) as [Hlt|Hle]; [not_a_200 Hresp Hcode|].
    destruct (GetBeaconBlockBySlot_returns
                (consensusService h) node
                (log ++ [http.GET (headersURL (consensusService h))])%list slot)
      as [rb Hb].
    rewrite (GetBeaconBlockBySlot_run _ _ _ _ _ Hb) in Hresp.
    destruct rb as [beaconBlock|m];
      [|destruct (String.eqb m "block not found"); not_a_200 Hresp Hcode].
    destruct (String.eqb
                (BlockNumber (Data_Message_Body_ExecutionPayload beaconBlock)) "");
      [not_a_200 Hresp Hcode|].
    destruct (strconv.ParseUint10_64
                (BlockNumber (Data_Message_Body_ExecutionPayload beaconBlock)))
      as [number|m] eqn:Hnum; [|not_a_200 Hresp Hcode].
    rewrite <- app_assoc in Hresp. cbn [app] in Hresp.
    destruct (GetExecutionBlockByNumber_returns
                (executionService h) node
                (log ++ [http.GET (headersURL (consensusService h));
                         blockRequestFor (consensusService h) slot])%list
                ("0x" ++ fmt.verb_x number)) as [re He].
    rewrite (GetExecutionBlockByNumber_run _ _ _ _ _ He) in Hresp.
    destruct re as [blk|m]; [|not_a_200 Hresp Hcode].
    unfold lift in Hresp. cbn [fst] in Hresp.
    destruct (hexToBigInt_returns (res_BaseFeePerGas (Result blk)))
      as [[baseFee Hbf] | Hfail].
    + rewrite (rewardResponse_ok blk baseFee Hbf) in Hresp.
      inversion Hresp.
      exists slot, headSlot, beaconBlock, number, blk, baseFee.
      repeat split; auto.
    + rewrite (rewardResponse_bad_fee blk Hfail) in Hresp.
      not_a_200 Hresp Hcode.
  - intros (slot & headSlot & beaconBlock & number & blk & baseFee
            & Hparse & Hh & Hle & Hb & Hnum & He & Hbf & ->).
    unfold GetBlockReward, io_bind.
    rewrite Hparse, (GetHeadSlot_run _ _ _ _ Hh).
    replace (headSlot <? slot) with false
      by (symmetry; apply Z.ltb_ge; exact Hle).
    rewrite (GetBeaconBlockBySlot_run _ _ _ _ _ Hb).
    destruct (BlockNumber (Data_Message_Body_ExecutionPayload beaconBlock))
      as [|ch rest] eqn:Ebn; [discriminate Hnum|].
    cbn [String.eqb]. rewrite Hnum.
    rewrite <- app_assoc. cbn [app].
    rewrite (GetExecutionBlockByNumber_run _ _ _ _ _ He).
    unfold lift. cbn [fst].
    rewrite (rewardResponse_ok blk baseFee Hbf). split; reflexivity.
Qed.

(** X13.  Both handlers always answer: they never panic, the status code
    is 200, 400, 404 or 500, the requests already logged are kept, and the
    requests they add are an initial part of a fixed sequence - headers,
    beacon block, execution block for [GetBlockReward]; headers, sync
    committee for [GetSyncDuties].  So the execution layer is contacted
    at most once, and only after a beacon block was fetched. *)
Theorem handlers_always_answer :
  forall (h : BlockRewardHandler) (slotParam : string)
         (node : http.Node) (log : list http.Request),
    (exists resp reqs,
        GetBlockReward h slotParam node log = (Done resp, (log ++ reqs)%list)
        /\ In (code resp) [200; 400; 404; 500]
        /\ (reqs = []
            \/ reqs = [http.GET (headersURL (consensusService h))]
            \/ (exists slot,
                   reqs = [http.GET (headersURL (consensusService h));
                           blockRequestFor (consensusService h) slot])
            \/ (exists slot blockNumberHex,
                   reqs = [http.GET (headersURL (consensusService h));
                           blockRequestFor (consensusService h) slot;
                           blockByNumberRequest (executionService h)
                                                blockNumberHex])))
    /\ (exists resp reqs,
           GetSyncDuties h slotParam node log = (Done resp, (log ++ reqs)%list)
           /\ In (code resp) [200; 400; 404; 500]
           /\ (reqs = []
               \/ reqs = [http.GET (headersURL (consensusService h))]
               \/ (exists slot,
                      reqs = [http.GET (headersURL (consensusService h));
                              syncRequestFor (consensusService h) slot]))).
Proof.
  intros h slotParam node log.
  unfold GetBlockReward, GetSyncDuties, io_bind.
  destruct (strconv.ParseUint10_64 slotParam) as [slot|m] eqn:Hparse.
  2:{ split; eexists; exists []; rewrite app_nil_r;
        (split; [reflexivity | split; [cbn; tauto | now left]]). }
  pose proof (ParseUint10_64_range _ _ Hparse) as Hrange.
  destruct (GetHeadSlot_returns (consensusService h) node log) as [rh Hh].
  rewrite (GetHeadSlot_run _ _ _ _ Hh).
  destruct rh as [headSlot|m].
  2:{ split; eexists; exists [http.GET (headersURL (consensusService h))];
        (split; [reflexivity | split; [cbn; tauto | right; now left]]). }
  destruct (headSlot <? slot).
  { split; eexists; exists [http.GET (headersURL (consensusService h))];
      (split; [reflexivity | split; [cbn; tauto | right; now left]]). }
  split.
  - destruct (GetBeaconBlockBySlot_returns
                (consensusService h) node
                (log ++ [http.GET (headersURL (consensusService h))])%list slot)
      as [rb Hb].
    rewrite (GetBeaconBlockBySlot_run _ _ _ _ _ Hb).
    rewrite <- app_assoc. cbn [app].
    assert (forall resp,
               In (code resp) [200; 400; 404; 500] ->
               exists resp' reqs,
                 (Done resp,
                  (log ++ [http.GET (headersURL (consensusService h));
                           blockRequestFor (consensusService h) slot])%list)
                 = (Done resp', (log ++ reqs)%list)
                 /\ In (code resp') [200; 400; 404; 500]
                 /\ (reqs = []
                     \/ reqs = [http.GET (headersURL (consensusService h))]
                     \/ (exists slot,
                            reqs = [http.GET (headersURL (consensusService h));
                                    blockRequestFor (consensusService h) slot])
                     \/ (exists slot blockNumberHex,
                            reqs = [http.GET (headersURL (consensusService h));
                                    blockRequestFor (consensusService h) slot;
                                    blockByNumberRequest (executionService h)
                                                         blockNumberHex])))
      as Htwo.
    { intros resp Hc. exists resp. eexists. split; [reflexivity|].
      split; [exact Hc|]. right; right; left. now exists slot. }
    destruct rb as [beaconBlock|m].
    2:{ destruct (String.eqb m "block not found");
          apply Htwo; cbn; tauto. }
    destruct (String.eqb
                (BlockNumber (Data_Message_Body_ExecutionPayload beaconBlock)) "");
      [apply Htwo; cbn; tauto|].
    destruct (strconv.ParseUint10_64
                (BlockNumber (Data_Message_Body_ExecutionPayload beaconBlock)))
      as [number|m];
      [|apply Htwo; cbn; tauto].
    destruct (GetExecutionBlockByNumber_returns
                (executionService h) node
                (log ++ [http.GET (headersURL (consensusService h));
                         blockRequestFor (consensusService h) slot])%list
                ("0x" ++ fmt.verb_x number)) as [re He].
    rewrite (GetExecutionBlockByNumber_run _ _ _ _ _ He).
    rewrite <- app_assoc. cbn [app].
    destruct re as [blk|m].
    + unfold lift.
      destruct (rewardResponse_code blk) as (resp & Hresp & Hcode).
      rewrite Hresp. exists resp. eexists. split; [reflexivity|].
      split; [destruct Hcode as [-> | ->]; cbn; tauto|].
      right; right; right. now exists slot, ("0x" ++ fmt.verb_x number)%string.
    + eexists. eexists. split; [reflexivity|].
      split; [cbn; tauto|].
      right; right; right. now exists slot, ("0x" ++ fmt.verb_x number)%string.
  - destruct (GetSyncCommitteeDuties_returns
                (consensusService h) node
                (log ++ [http.GET (headersURL (consensusService h))])%list slot)
      as [rs Hs].
    rewrite (GetSyncCommitteeDuties_run _ _ _ _ _ Hrange Hs).
    rewrite <- app_assoc. cbn [app].
    destruct rs as [validators|m];
      [|destruct (String.eqb m "sync committee duties not found for this slot")];
      (eexists; eexists; split; [reflexivity|];
       split; [cbn; tauto | right; right; now exists slot]).
Qed.



(* ================================================================= *)
(** ** Further properties of the reward *)

Section RewardAlgebra.

Lemma sumOfContributions_cons (baseFee : Z) (tx : ExecutionBlockTx)
      (txs : list ExecutionBlockTx) :
  sumOfContributions baseFee (tx :: txs)
  = sumOfContributions baseFee [tx] + sumOfContributions baseFee txs.
Proof. exact (sumOfContributions_app baseFee [tx] txs). Qed.

Lemma sumOfContributions_perm (baseFee : Z) (txs txs' : list ExecutionBlockTx) :
  Permutation txs txs' ->
  sumOfContributions baseFee txs = sumOfContributions baseFee txs'.
Proof.
  induction 1 as [|x l l' _ IH|x y l|l l' l'' _ IH1 _ IH2].
  - reflexivity.
  - rewrite (sumOfContributions_cons baseFee x l),
      (sumOfContributions_cons baseFee x l'). now rewrite IH.
  - rewrite (sumOfContributions_cons baseFee y (x :: l)),
      (sumOfContributions_cons baseFee x l),
      (sumOfContributions_cons baseFee x (y :: l)),
      (sumOfContributions_cons baseFee y l). lia.
  - now rewrite IH1.
Qed.

(** A value parsed from a field that has no minus sign after its prefix
    is not negative. *)
Lemma parsesTo_unsigned_nonneg (s : string) (v : Z) :
  parsesTo s v ->
  (forall rest, s <> ("0x-" ++ rest)%string) ->
  0 <= v.
Proof.
  unfold parsesTo. intros Hv Hsign.
  destruct s as [|c1 [|c2 [|c3 rest]]];
    try (rewrite hexToBigInt_short in Hv by (vm_compute; discriminate);
         discriminate).
  rewrite hexToBigInt_long in Hv.
  destruct (Ascii.eqb_spec c1 "0") as [-> | ]; [|discriminate].
  destruct (Ascii.eqb_spec c2 "x") as [-> | ]; [|discriminate].
  cbn [andb] in Hv.
  destruct (big.SetString (String.String c3 rest) 16) as [i|] eqn:Eset;
    [|discriminate].
  inversion Hv; subst i.
  assert (isBase16Literal (String.String c3 rest) = true) as Hlit
      by (apply SetString_16_ok_iff; now exists v).
  unfold isBase16Literal, afterSign in Hlit.
  destruct (Ascii.eqb_spec c3 "-") as [-> | Hminus].
  { exfalso. now apply (Hsign rest). }
  cbn [orb] in Hlit.
  destruct (Ascii.eqb_spec c3 "+") as [-> | Hplus].
  - apply andb_true_iff in Hlit as [Hne Hall].
    assert (rest <> EmptyString) as Hrest by (intros ->; discriminate Hne).
    rewrite (SetString_plus rest Hrest Hall) in Eset. inversion Eset.
    apply hexValueFrom_nonneg; [exact Hall | reflexivity].
  - apply andb_true_iff in Hlit as [_ Hall].
    rewrite (SetString_unsigned (String.String c3 rest)) in Eset
      by (try exact Hall; discriminate).
    inversion Eset.
    apply hexValueFrom_nonneg; [exact Hall | reflexivity].
Qed.

End RewardAlgebra.

(** X15.  The reward does not depend on the order of the transactions:
    for two transaction lists that are permutations of each other the
    total in wei and the whole response are the same. *)
Theorem reward_is_order_independent :
  forall (blk : ExecutionBlockFullResponse) (txs : list ExecutionBlockTx)
         (baseFee : Z),
    Permutation (Transactions (Result blk)) txs ->
    totalRewardWei baseFee (Transactions (Result blk))
    = totalRewardWei baseFee txs
    /\ rewardResponse blk = rewardResponse (withTransactions blk txs).
Proof.
  intros blk txs baseFee Hperm. split.
  - rewrite !totalRewardWei_eq.
    now rewrite (sumOfContributions_perm baseFee _ _ Hperm).
  - destruct (hexToBigInt_returns (res_BaseFeePerGas (Result blk)))
      as [[bf Hbf] | Hfail].
    + rewrite (rewardResponse_ok blk bf Hbf).
      rewrite (rewardResponse_ok (withTransactions blk txs) bf) by exact Hbf.
      cbn [withTransactions mkBlock Result Transactions].
      now rewrite (sumOfContributions_perm bf _ _ Hperm).
    + rewrite (rewardResponse_bad_fee blk Hfail).
      now rewrite (rewardResponse_bad_fee (withTransactions blk txs)) by exact Hfail.
Qed.

Lemma reward_is_order_independent_witness :
  totalRewardWei 1000000000 (Transactions (Result mixedBlock))
  = totalRewardWei 1000000000
      [mkTx "0x3b9aca00" "0x5208"; mkTx "0x77359400" "0x5208";
       mkTx "" "0x5208"; mkTx "0x77359400" "21000";
       mkTx "0x4a817c800" "0xc350"]
  /\ rewardResponse mixedBlock
     = rewardResponse
         (withTransactions mixedBlock
            [mkTx "0x3b9aca00" "0x5208"; mkTx "0x77359400" "0x5208";
             mkTx "" "0x5208"; mkTx "0x77359400" "21000";
             mkTx "0x4a817c800" "0xc350"]).
Proof.
  apply (reward_is_order_independent mixedBlock). apply perm_swap.
Defined.

(** X16.  The total is additive: the total of a transaction list that is
    the concatenation of two lists is the sum of their totals. *)
Theorem total_reward_is_additive :
  forall (baseFee : Z) (txs txs' : list ExecutionBlockTx),
  exists total total',
    totalRewardWei baseFee txs = Done total
    /\ totalRewardWei baseFee txs' = Done total'
    /\ totalRewardWei baseFee (txs ++ txs') = Done (total + total').
Proof.
  intros baseFee txs txs'.
  exists (sumOfContributions baseFee txs), (sumOfContributions baseFee txs').
  rewrite !totalRewardWei_eq, sumOfContributions_app. auto.
Qed.

(** X17.  When no gas field has a minus sign right after its 0x prefix,
    the reward is never negative, whatever the base fee and the gas
    prices are (signed or not): the response is the 500 of an unparsable
    base fee or a 200 whose reward is greater than or equal to zero. *)
Theorem reward_nonneg_for_unsigned_gas :
  forall blk : ExecutionBlockFullResponse,
    (forall tx rest,
        In tx (Transactions (Result blk)) -> Gas tx <> ("0x-" ++ rest)%string) ->
    rewardResponse blk
    = Done (JSON http.StatusInternalServerError (errorH "invalid base fee"))
    \/ exists reward,
         0 <= reward
         /\ rewardResponse blk = Done (okResponse (blockStatus blk) reward).
Proof.
  intros blk Hgas.
  destruct (hexToBigInt_returns (res_BaseFeePerGas (Result blk)))
    as [[baseFee Hbf] | Hfail].
  - right.
    exists (sumOfContributions baseFee (Transactions (Result blk)) / gwei).
    split; [|exact (rewardResponse_ok blk baseFee Hbf)].
    apply Z.div_pos; [|reflexivity].
    apply sumOfContributions_nonneg. intros tx g Hin _ Hg.
    apply (parsesTo_unsigned_nonneg (Gas tx) g Hg).
    intros rest. now apply Hgas.
  - left. now apply rewardResponse_bad_fee.
Qed.

Lemma reward_nonneg_for_unsigned_gas_witness :
  rewardResponse mixedBlock
  = Done (JSON http.StatusInternalServerError (errorH "invalid base fee"))
  \/ exists reward,
       0 <= reward
       /\ rewardResponse mixedBlock
          = Done (okResponse (blockStatus mixedBlock) reward).
Proof.
  apply (reward_nonneg_for_unsigned_gas mixedBlock).
  intros tx rest Hin. simpl in Hin.
  destruct Hin as [<- | [<- | [<- | [<- | [<- | []]]]]]; discriminate.
Defined.

(** X18.  The conversion to gwei never panics and rounds towards minus
    infinity for every total, negative ones included: the reward is the
    greatest integer whose 1,000,000,000-fold does not exceed the total,
    so a negative total gives a negative reward (-1 wei gives -1). *)
Theorem gwei_conversion_is_floor :
  forall total : Z,
  exists reward,
    rewardInGwei total = Done reward
    /\ reward * 1000000000 <= total < (reward + 1) * 1000000000
    /\ (total < 0 <-> reward < 0).
Proof.
  intros total. exists (total / gwei).
  split; [apply rewardInGwei_eq|]. unfold gwei.
  pose proof (Z.div_mod total 1000000000) as Hdm.
  pose proof (Z.mod_pos_bound total 1000000000) as Hb.
  split; [lia|]. split; intros H.
  - apply Z.div_lt_upper_bound; lia.
  - destruct (Z.lt_ge_cases total 0) as [|Hge]; [assumption|].
    pose proof (Z.div_pos total 1000000000 Hge). lia.
Qed.

(** X19.  The handlers read the slot parameter as a number: two
    parameters that are decimal numerals of the same unsigned 64-bit
    integer (such as 7 and 007) are handled in the same way, with the
    same requests and the same answers; the slot, printed in decimal as
    it is in the request URLs, parses back to the same slot. *)
Theorem slot_parameter_is_read_as_a_number :
  forall (h : BlockRewardHandler) (slotParam slotParam' : string),
    isUint64Numeral slotParam = true ->
    isUint64Numeral slotParam' = true ->
    decimalValue slotParam = decimalValue slotParam' ->
    (forall node log,
        GetBlockReward h slotParam node log
        = GetBlockReward h slotParam' node log
        /\ GetSyncDuties h slotParam node log
           = GetSyncDuties h slotParam' node log)
    /\ strconv.ParseUint10_64 (fmt.verb_d (decimalValue slotParam))
       = Ok (decimalValue slotParam).
Proof.
  intros h slotParam slotParam' Hnum Hnum' Hsame.
  pose proof (ParseUint10_64_numeral slotParam Hnum) as Hp.
  pose proof (ParseUint10_64_numeral slotParam' Hnum') as Hp'.
  split.
  - intros node log. unfold GetBlockReward, GetSyncDuties.
    rewrite Hp, Hp', Hsame. split; reflexivity.
  - pose proof (ParseUint10_64_range _ _ Hp) as Hrange.
    rewrite (ParseUint10_64_numeral _ (verb_d_uint64 _ Hrange)).
    destruct Hrange as [Hpos _].
    now destruct (verb_d_numeral _ Hpos) as (_ & _ & ->).
Qed.

Lemma slot_parameter_witness :
  (forall node log,
      GetBlockReward sampleHandler "0010590951" node log
      = GetBlockReward sampleHandler "10590951" node log
      /\ GetSyncDuties sampleHandler "0010590951" node log
         = GetSyncDuties sampleHandler "10590951" node log)
  /\ strconv.ParseUint10_64 (fmt.verb_d (decimalValue "0010590951"))
     = Ok (decimalValue "0010590951").
Proof.
  apply (slot_parameter_is_read_as_a_number
           sampleHandler "0010590951" "10590951"); reflexivity.
Defined.
